(** * dockerclient: a shallow embedding of the Docker client and its properties

    The development follows the Go sources: [utils.go] (the address parser)
    and the client proper (request executor, synchronous operations, event
    stream).  Go strings are byte strings ([string]); Go [int] values are
    [Z]; a Go [map] is a [gmap] held in a store and passed by reference; the
    network, the daemon and the JSON library are an environment the client
    runs against. *)

From Stdlib Require Import ZArith Ascii DecimalString.
From Stdlib Require DecimalPos DecimalZ.
From Stdlib Require String.
From stdpp Require Import base option list strings gmap fin_maps.

Set Warnings "-register-all".
Local Open Scope Z_scope.

(** ** Outcomes of code that indexes slices

    A Go index expression out of range is a run-time panic. *)

Inductive outcome (A : Type) : Type :=
| Returns (a : A)
| Panics.
Arguments Returns {A} a.
Arguments Panics {A}.

(** ** The part of Go's [strings] package the client uses *)

Module strings.

(** [strings.Index]: the byte offset of the first occurrence of [substr]
    in [s], [None] for Go's [-1]. *)
Definition Index (s substr : string) : option nat := String.index 0 substr s.

(** The slice expressions [s[:n]] and [s[n:]]. *)
Definition upto (n : nat) (s : string) : string := String.substring 0 n s.

Fixpoint from (n : nat) (s : string) : string :=
  match n, s with
  | O, _ => s
  | S _, EmptyString => EmptyString
  | S n', String _ s' => from n' s'
  end.

(** [strings.Count] for a non-empty [substr]: non-overlapping occurrences,
    found left to right.  Every round drops at least one byte, so the
    length of [s] plus one bounds the number of rounds. *)
Fixpoint Count_loop (rounds : nat) (s substr : string) : nat :=
  match rounds with
  | O => O
  | S r =>
      match Index s substr with
      | None => O
      | Some i => S (Count_loop r (from (i + String.length substr) s) substr)
      end
  end.

Definition Count (s substr : string) : nat :=
  Count_loop (S (String.length s)) s substr.

(** [strings.Split] ([genSplit] with [n < 0]) for a non-empty [sep]: the
    result slice has [Count s sep + 1] cells; the loop fills one cell per
    occurrence and the last cell takes what is left of [s]. *)
Fixpoint Split_loop (n : nat) (s sep : string) : list string :=
  match n with
  | O => [s]
  | S n' =>
      match Index s sep with
      | None => [s]
      | Some m => upto m s :: Split_loop n' (from (m + String.length sep) s) sep
      end
  end.

Definition Split (s sep : string) : list string :=
  Split_loop (Count s sep) s sep.

End strings.

(** ** utils.go *)

(** [ParseURL]: [arr[0]] and [arr[1]] are index expressions, checked at run
    time. *)
Definition ParseURL (url : string) : outcome (string * string) :=
  let arr := strings.Split url "://" in
  if decide (length arr = 1%nat) then
    match arr !! 0%nat with
    | Some a0 => Returns ("unix", a0)
    | None => Panics
    end
  else
    match arr !! 0%nat with
    | None => Panics
    | Some a0 =>
        let proto := if decide (a0 = "http") then "tcp" else a0 in
        match arr !! 1%nat with
        | Some a1 => Returns (proto, a1)
        | None => Panics
        end
    end.

(** ** The data model *)

Record Event := { ContainerId : string; Status : string }.

Record DaemonInfo := {
  Containers : Z;
  Debug : Z;
  Driver : string;
  DriverStatus : list (list string);
  ExecutionDriver : string;
  IPv4Forwarding : Z;
  Images : Z;
  IndexServerAddress : string;
  InitPath : string;
  InitSha1 : string;
  KernelVersion : string;
  MemoryLimit : Z;
  NEventsListener : Z;
  NFd : Z;
  NGoroutines : Z;
  Sockets : list string;
  SwapLimit : Z
}.

(** [RootPath]: the [range] loop over [d.DriverStatus]; [i[0]] and [i[1]]
    are unchecked index expressions. *)
Fixpoint RootPath_rows (rows : list (list string)) : outcome string :=
  match rows with
  | [] => Returns ""
  | i :: rest =>
      match i !! 0%nat with
      | None => Panics
      | Some k =>
          if decide (k = "Root Dir") then
            match i !! 1%nat with
            | None => Panics
            | Some v => Returns v
            end
          else RootPath_rows rest
      end
  end.

Definition RootPath (d : DaemonInfo) : outcome string :=
  RootPath_rows (DriverStatus d).

(** [ParseURL] never panics ([ParseURL_returns] below), so a caller reads
    its two results directly. *)
Definition returned {A : Type} (d : A) (o : outcome A) : A :=
  match o with
  | Returns a => a
  | Panics => d
  end.

(** ** Errors, values and JSON *)

(** A Go [error]: [io.EOF] is a distinguished value the code compares
    against; any other error is known by its message. *)
Inductive error : Type :=
| EOF
| ErrorString (msg : string).

Definition Error (e : error) : string :=
  match e with
  | EOF => "EOF"
  | ErrorString msg => msg
  end.

(** Go's [(T, error)] where [T] is nil whenever the error is not. *)
Inductive result (A : Type) : Type :=
| Ok (a : A)
| Err (e : error).
Arguments Ok {A} a.
Arguments Err {A} e.

(** What an [interface{}] request body or a decoded document holds. *)
Inductive value : Type :=
| VNull
| VBool (b : bool)
| VNum (z : Z)
| VStr (s : string)
| VArr (l : list value)
| VObj (m : gmap string value).

(** [%d] of an [int]. *)
Definition itoa (z : Z) : string := NilZero.string_of_int (Z.to_int z).

(** [strconv.FormatBool]. *)
Definition FormatBool (b : bool) : string := if b then "true" else "false".

(** The stream decoder of [encoding/json], an external collaborator, as far
    as the client depends on it.  A response body is the sequence of units
    the decoder's scanner meets: a complete JSON value, or bytes that are
    not the start of one.  [Decode] first returns the error stored in the
    decoder, if any; [readValue] stores the scanner's error (a syntax error,
    or [io.EOF] at the end of the input) in the decoder before returning it;
    an error of unmarshalling a complete value is returned but not
    stored. *)
Module json.

Inductive chunk : Type :=
| JSONValue (v : value)
| Garbage (msg : string).

Record Decoder := { err : option error; buf : list chunk }.

Definition NewDecoder (r : list chunk) : Decoder :=
  {| err := None; buf := r |}.

Definition readValue (dec : Decoder) : result value * Decoder :=
  match buf dec with
  | [] => (Err EOF, {| err := Some EOF; buf := [] |})
  | Garbage msg :: _ =>
      (Err (ErrorString msg),
       {| err := Some (ErrorString msg); buf := buf dec |})
  | JSONValue v :: rest => (Ok v, {| err := err dec; buf := rest |})
  end.

Definition Decode {T : Type} (unmarshal : value -> result T)
    (dec : Decoder) : result T * Decoder :=
  match err dec with
  | Some e => (Err e, dec)
  | None =>
      match readValue dec with
      | (Err e, dec') => (Err e, dec')
      | (Ok v, dec') => (unmarshal v, dec')
      end
  end.

End json.

Module http.

Record Request := {
  Method : string;
  URI : string;
  ContentType : string;
  Payload : string
}.

Record Response := {
  StatusCode : Z;
  Status : string;
  Body : list json.chunk
}.

End http.

(** ** The world the client runs in *)

(** A connection is known by the order in which it was dialled; a map is
    known by its place in the store. *)
Definition conn : Type := nat.
Definition loc : Type := nat.

(** [resp.Body]: the bytes of the response, read off connection [rc_conn]. *)
Record ReadCloser := { rc_conn : conn; rc_data : list json.chunk }.

(** What the client does to the outside, in the order it does it.
    [Requested] marks an entry into [newRequest] and has no counterpart on
    the wire; the others are the calls into [net], [httputil], [fmt], [log]
    and the sends on the event channel (a [*Event], possibly nil). *)
Inductive effect : Type :=
| Requested (method uri : string) (body : value)
| Dialed (proto addr : string) (c : option conn)
| Sent (c : conn) (req : http.Request)
| BodyClosed (c : conn)
| ConnClosed (c : conn)
| Printed (line : string)
| Logged (line : string)
| ChanSent (ev : option Event)
| ChanClosed.

(** The state: the Go maps alive (a reference without an entry is the nil
    map), the number of connections dialled so far, and the effects so
    far, oldest first. *)
Record World := {
  store : gmap loc (gmap string value);
  dialed : nat;
  trace : list effect
}.

(** The collaborators the spec leaves outside: the JSON library, the
    request constructor of [net/http], the dialler and the daemon.  The
    last two may answer differently as the history grows. *)
Record Env := {
  json_Marshal : value -> result string;
  http_NewRequest : string -> string -> option error;
  net_Dial : list effect -> string -> string -> option error;
  conn_Do : list effect -> conn -> http.Request -> result http.Response;
  Unmarshal_createResp : value -> result string;
  Unmarshal_Event : value -> result (option Event)
}.

Record dockerClient := { path : string }.

(** State passing. *)
Definition M (A : Type) : Type := World -> A * World.

Definition ret {A : Type} (a : A) : M A := fun w => (a, w).

Definition bind {A B : Type} (m : M A) (k : A -> M B) : M B :=
  fun w => let (a, w') := m w in k a w'.

Notation "'let*' x ':=' m 'in' k" := (bind m (fun x => k))
  (at level 10, x pattern, m at level 100, k at level 200, only parsing).

Definition emit (e : effect) : M unit :=
  fun w => (tt, {| store := store w; dialed := dialed w;
                   trace := trace w ++ [e] |}).

(** [container[key]] with the comma-ok form, [container[key]] as a value
    (nil when absent), [delete(container, key)], and the map as the
    [interface{}] handed to the marshaller: a nil map reads as empty,
    deletes nothing and marshals as [null]. *)
Definition map_has (l : loc) (key : string) : M bool :=
  fun w => (bool_decide (is_Some (store w !! l ≫= (.!! key))), w).

Definition map_index (l : loc) (key : string) : M value :=
  fun w => (default VNull (store w !! l ≫= (.!! key)), w).

Definition map_delete (l : loc) (key : string) : M unit :=
  fun w => (tt, {| store := alter (delete key) l (store w);
                   dialed := dialed w; trace := trace w |}).

Definition map_value (l : loc) : M value :=
  fun w => (match store w !! l with
            | Some m => VObj m
            | None => VNull
            end, w).

(** ** The client *)

(** [isOkStatus]: a lookup in the literal map; a missing key reads as the
    zero value [false]. *)
Definition codes : gmap Z bool :=
  {[ 200 := true; 201 := true; 204 := true;
     400 := false; 404 := false; 500 := false; 409 := false; 406 := false ]}.

Definition isOkStatus (code : Z) : bool := default false (codes !! code).

Section Client.

Context (env : Env) (docker : dockerClient).

(** [newConn]: [net.Dial] on the parsed address, wrapped by
    [httputil.NewClientConn]. *)
Definition newConn : M (result conn) :=
  fun w =>
    let '(proto, addr) := returned ("", "") (ParseURL (path docker)) in
    match net_Dial env (trace w) proto addr with
    | Some e =>
        (Err e, {| store := store w; dialed := dialed w;
                   trace := trace w ++ [Dialed proto addr None] |})
    | None =>
        let c := dialed w in
        (Ok c, {| store := store w; dialed := S c;
                  trace := trace w ++ [Dialed proto addr (Some c)] |})
    end.

(** [c.Do(req)]. *)
Definition Do (c : conn) (req : http.Request) : M (result http.Response) :=
  fun w =>
    (conn_Do env (trace w) c req,
     {| store := store w; dialed := dialed w;
        trace := trace w ++ [Sent c req] |}).

Definition newRequest (method uri : string) (body : value)
    : M (result (ReadCloser * conn)) :=
  let* _ := emit (Requested method uri body) in
  match json_Marshal env body with
  | Err e => ret (Err e)
  | Ok bodyJson =>
      match http_NewRequest env method uri with
      | Some e => ret (Err e)
      | None =>
          let req := {| http.Method := method; http.URI := uri;
                        http.ContentType := "application/json";
                        http.Payload := bodyJson |} in
          let* c := newConn in
          match c with
          | Err e => ret (Err e)
          | Ok c =>
              let* resp := Do c req in
              match resp with
              | Err e => ret (Err e)
              | Ok resp =>
                  if negb (isOkStatus (http.StatusCode resp)) then
                    ret (Err (ErrorString
                                ("invalid HTTP request "
                                 +:+ itoa (http.StatusCode resp)
                                 +:+ " " +:+ http.Status resp)))
                  else
                    ret (Ok ({| rc_conn := c; rc_data := http.Body resp |}, c))
              end
          end
      end
  end.

Definition PullImage (name : string) : M (option error) :=
  let method := "POST" in
  let uri := "/images/create?fromImage=" +:+ name in
  let* r := newRequest method uri VNull in
  match r with
  | Err _ => ret None
  | Ok (respBody, conn) =>
      let* _ := emit (BodyClosed (rc_conn respBody)) in
      let* _ := emit (ConnClosed conn) in
      ret None
  end.

Definition RemoveContainer (name : string) (force volumes : bool)
    : M (option error) :=
  let method := "DELETE" in
  let uri := "/containers/" +:+ name +:+ "?force=" +:+ FormatBool force
             +:+ "&volumes=" +:+ FormatBool volumes in
  let* r := newRequest method uri VNull in
  match r with
  | Err e => ret (Some e)
  | Ok (respBody, conn) =>
      let* _ := emit (BodyClosed (rc_conn respBody)) in
      let* _ := emit (ConnClosed conn) in
      ret None
  end.

(** [CreateContainer]: [name] is declared and stays the empty string until
    the response is decoded; the two deferred closes run at the return,
    last deferred first. *)
Definition CreateContainer (container : loc) : M (string * option error) :=
  let method := "POST" in
  let name := "" in
  let uri := "/containers/create" in
  let* exists_ := map_has container "Name" in
  let uri := if (exists_ : bool) then uri +:+ "?name=" +:+ name else uri in
  let* _ := map_delete container "Name" in
  let* body := map_value container in
  let* r := newRequest method uri body in
  match r with
  | Err e => ret ("", Some e)
  | Ok (respBody, conn) =>
      let decoded :=
        fst (json.Decode (Unmarshal_createResp env)
               (json.NewDecoder (rc_data respBody))) in
      let out :=
        match decoded with
        | Err e => (name, Some e)
        | Ok id => (id, None)
        end in
      let* _ := emit (ConnClosed conn) in
      let* _ := emit (BodyClosed (rc_conn respBody)) in
      ret out
  end.

Definition StartContainer (name : string) (hostConfig : value)
    : M (option error) :=
  let method := "POST" in
  let uri := "/containers/" +:+ name +:+ "/start" in
  let* r := newRequest method uri hostConfig in
  match r with
  | Err e => ret (Some e)
  | Ok (respBody, conn) =>
      let* _ := emit (ConnClosed conn) in
      let* _ := emit (BodyClosed (rc_conn respBody)) in
      ret None
  end.

Definition RunContainer (config : loc) : M (string * option error) :=
  let* created := CreateContainer config in
  match created with
  | (_, Some e) => ret ("", Some e)
  | (name, None) =>
      let* hostConfig := map_index config "HostConfig" in
      let* e := StartContainer name hostConfig in
      ret (name, e)
  end.

(** [GetEvents], the producing goroutine, with no signal arriving.  The
    [for] loop runs until [Decode] returns [io.EOF]; [rounds] bounds how
    many iterations are observed, and the result tells whether the
    goroutine has finished within them. *)
Fixpoint events_loop (rounds : nat) (dec : json.Decoder) : M bool :=
  match rounds with
  | O => ret false
  | S r =>
      match json.Decode (Unmarshal_Event env) dec with
      | (Err EOF, _) => ret true
      | (Err e, dec') =>
          let* _ := emit (Logged ("cannot decode json: " +:+ Error e)) in
          events_loop r dec'
      | (Ok event, dec') =>
          let* _ := emit (ChanSent event) in
          events_loop r dec'
      end
  end.

Definition GetEvents_producer (rounds : nat) : M bool :=
  let* r := newRequest "GET" "/events" VNull in
  match r with
  | Err e =>
      let* _ := emit (Printed (Error e)) in
      let* _ := emit ChanClosed in
      ret true
  | Ok (respBody, conn) =>
      let* finished :=
        events_loop rounds (json.NewDecoder (rc_data respBody)) in
      if (finished : bool) then
        let* _ := emit (Logged "closing event channel") in
        let* _ := emit ChanClosed in
        ret true
      else ret false
  end.

End Client.

(** ** A scripted daemon to run the client against *)

Module Scripted.

(** A stand-in for [json.Marshal]: enough of the encoding to tell bodies
    apart. *)
Definition marshal (v : value) : result string :=
  Ok match v with
     | VNull => "null"
     | VBool b => FormatBool b
     | VNum z => itoa z
     | VStr s => "<str>"
     | VArr _ => "[...]"
     | VObj m =>
         "{" +:+ foldr (fun k acc => k +:+ ";" +:+ acc) "}" (map_to_list m).*1
     end.

Definition unmarshal_createResp (v : value) : result string :=
  match v with
  | VObj m =>
      match m !! "Id" with
      | Some (VStr s) => Ok s
      | None | Some VNull => Ok ""
      | Some _ => Err (ErrorString "json: cannot unmarshal into Go value of type string")
      end
  | VNull => Ok ""
  | _ => Err (ErrorString "json: cannot unmarshal into Go value of type docker.createResp")
  end.

Definition field (m : gmap string value) (k : string) : result string :=
  match m !! k with
  | Some (VStr s) => Ok s
  | None | Some VNull => Ok ""
  | Some _ => Err (ErrorString "json: cannot unmarshal into Go value of type string")
  end.

Definition unmarshal_Event (v : value) : result (option Event) :=
  match v with
  | VObj m =>
      match field m "id", field m "status" with
      | Ok i, Ok s => Ok (Some {| ContainerId := i; Status := s |})
      | Err e, _ | _, Err e => Err e
      end
  | VNull => Ok None
  | _ => Err (ErrorString "json: cannot unmarshal into Go value of type docker.Event")
  end.

(** A daemon that answers every request with the same response, over a
    dialler that always connects. *)
Definition answering (resp : http.Response) : Env :=
  {| json_Marshal := marshal;
     http_NewRequest := fun _ _ => None;
     net_Dial := fun _ _ _ => None;
     conn_Do := fun _ _ _ => Ok resp;
     Unmarshal_createResp := unmarshal_createResp;
     Unmarshal_Event := unmarshal_Event |}.

(** No daemon listening: every dial is refused. *)
Definition refusing : Env :=
  {| json_Marshal := marshal;
     http_NewRequest := fun _ _ => None;
     net_Dial := fun _ _ _ => Some (ErrorString "dial unix /var/run/docker.sock: connection refused");
     conn_Do := fun _ _ _ => Err (ErrorString "unreachable");
     Unmarshal_createResp := unmarshal_createResp;
     Unmarshal_Event := unmarshal_Event |}.

(** A daemon that creates container [abc] and then fails to start it. *)
Definition create_then_fail : Env :=
  {| json_Marshal := marshal;
     http_NewRequest := fun _ _ => None;
     net_Dial := fun _ _ _ => None;
     conn_Do := fun _ _ req =>
       if String.prefix "/containers/create" (http.URI req) then
         Ok {| http.StatusCode := 201; http.Status := "201 Created";
               http.Body := [json.JSONValue (VObj {[ "Id" := VStr "abc" ]})] |}
       else
         Ok {| http.StatusCode := 500;
               http.Status := "500 Internal Server Error";
               http.Body := [] |};
     Unmarshal_createResp := unmarshal_createResp;
     Unmarshal_Event := unmarshal_Event |}.

Definition response (code : Z) (status : string) (body : list json.chunk)
    : http.Response :=
  {| http.StatusCode := code; http.Status := status; http.Body := body |}.

Definition client : dockerClient := {| path := "unix:///var/run/docker.sock" |}.

(** A fresh process whose only map is the container specification [spec],
    at reference 0. *)
Definition world (spec : gmap string value) : World :=
  {| store := {[ 0%nat := spec ]}; dialed := 0; trace := [] |}.

Definition foo_spec : gmap string value :=
  {[ "Name" := VStr "foo"; "Image" := VStr "busybox";
     "HostConfig" := VObj {[ "Privileged" := VBool true ]} ]}.

Definition event (i s : string) : value :=
  VObj {[ "id" := VStr i; "status" := VStr s ]}.

End Scripted.

(** ** Reading results and traces, and the inputs of the examples *)

(** The address as the spec words it: everything after the first separator
    is the endpoint. *)
Definition ParseURL_spec (url : string) : string * string :=
  match strings.Index url "://" with
  | None => ("unix", url)
  | Some m =>
      let scheme := strings.upto m url in
      (if decide (scheme = "http") then "tcp" else scheme,
       strings.from (m + 3) url)
  end.

(** The address as the code computes it: the endpoint stops at the next
    separator, if there is one. *)
Definition ParseURL_segments (url : string) : string * string :=
  match strings.Index url "://" with
  | None => ("unix", url)
  | Some m =>
      let scheme := strings.upto m url in
      let rest := strings.from (m + 3) url in
      (if decide (scheme = "http") then "tcp" else scheme,
       match strings.Index rest "://" with
       | None => rest
       | Some k => strings.upto k rest
       end)
  end.

(** The entry the lookup is after: the second element of the first row whose
    first element is "Root Dir", the empty string when there is none. *)
Definition is_root_dir (row : list string) : bool :=
  bool_decide (row !! 0%nat = Some "Root Dir").

Definition root_dir_entry (rows : list (list string)) : string :=
  match List.find is_root_dir rows with
  | Some row => default "" (row !! 1%nat)
  | None => ""
  end.

Definition info_with (rows : list (list string)) : DaemonInfo :=
  {| Containers := 0; Debug := 0; Driver := "aufs"; DriverStatus := rows;
     ExecutionDriver := "native-0.1"; IPv4Forwarding := 1; Images := 0;
     IndexServerAddress := ""; InitPath := ""; InitSha1 := "";
     KernelVersion := ""; MemoryLimit := 1; NEventsListener := 0; NFd := 0;
     NGoroutines := 0; Sockets := []; SwapLimit := 0 |}.

Definition info_aufs : DaemonInfo :=
  info_with [["Pool Name"; "docker-8:1-pool"];
             ["Root Dir"; "/var/lib/docker/aufs"];
             ["Root Dir"; "/elsewhere"]].

Definition info_short_row : DaemonInfo :=
  info_with [["Dirs"; "12"]; ["Root Dir"]].

Definition info_empty_row : DaemonInfo :=
  info_with [["Dirs"; "12"]; []; ["Root Dir"; "/var/lib/docker/aufs"]].

Definition status_error (resp : http.Response) : error :=
  ErrorString ("invalid HTTP request " +:+ itoa (http.StatusCode resp)
               +:+ " " +:+ http.Status resp).

(** The requests entered, the connections opened and the connections closed,
    read off a trace. *)
Definition requests (t : list effect) : list (string * string) :=
  omap (fun e => match e with
                 | Requested method uri _ => Some (method, uri)
                 | _ => None
                 end) t.

Definition opened (c : conn) (e : effect) : bool :=
  match e with
  | Dialed _ _ (Some c') => bool_decide (c' = c)
  | _ => false
  end.

Definition closed (c : conn) (e : effect) : bool :=
  match e with
  | ConnClosed c' => bool_decide (c' = c)
  | _ => false
  end.

Definition opens (c : conn) (t : list effect) : nat :=
  length (List.filter (opened c) t).

Definition closes (c : conn) (t : list effect) : nat :=
  length (List.filter (closed c) t).

Definition create_uri (has_name : bool) : string :=
  if has_name then "/containers/create?name=" else "/containers/create".

Definition has_Name (container : loc) (w : World) : bool :=
  bool_decide (is_Some (store w !! container ≫= (.!! "Name"))).

(** The state in which CreateContainer makes its request: the "Name" key is
    gone from the caller's map. *)
Definition without_Name (container : loc) (w : World) : World :=
  {| store := alter (delete "Name") container (store w);
     dialed := dialed w; trace := trace w |}.

Definition create_body (container : loc) (w : World) : value :=
  match store (without_Name container w) !! container with
  | Some m => VObj m
  | None => VNull
  end.

(** The events the consumer receives: the sends on the channel, in order. *)
Definition delivered (t : list effect) : list (option Event) :=
  omap (fun e => match e with
                 | ChanSent ev => Some ev
                 | _ => None
                 end) t.

(** [w] with the effects [es] added. *)
Definition after (w : World) (es : list effect) : World :=
  {| store := store w; dialed := dialed w; trace := trace w ++ es |}.

Definition decode_log (e : error) : effect :=
  Logged ("cannot decode json: " +:+ Error e).

Definition stream_with_syntax_error : list json.chunk :=
  [json.JSONValue (Scripted.event "c1" "start");
   json.Garbage "invalid character 'o' in literal null (expecting 'u')";
   json.JSONValue (Scripted.event "c2" "die")].

(** ** The rest of the client *)

(** The records a container is decoded into. *)
Record Binding := { HostIp : string; HostPort : string }.

Record NetworkSettings := {
  IpAddress : string;
  Ports : gmap string (list Binding)
}.

Record State := { Running : bool }.

Record ContainerConfig := {
  Image : string;
  AttachStderr : bool;
  AttachStdin : bool;
  AttachStdout : bool
}.

Record ContainerHostConfig := { PortBindings : gmap string (list Binding) }.

Record Container := {
  Id : string;
  Name : string;
  Container_NetworkSettings : option NetworkSettings;
  Container_State : State;
  Config : ContainerConfig;
  HostConfig : ContainerHostConfig
}.

(** [NewClient]: keeps the address, touches nothing. *)
Definition NewClient (path : string) : dockerClient * option error :=
  ({| path := path |}, None).

Section Fetch.

(** The unmarshallers of the three documents read back; a pointer target
    may come back nil. *)
Context (env : Env) (docker : dockerClient).
Context (Unmarshal_Container : value -> result (option Container)).
Context (Unmarshal_Containers : value -> result (list (option Container))).
Context (Unmarshal_DaemonInfo : value -> result (option DaemonInfo)).

Definition FetchContainer (name : string) : M (result (option Container)) :=
  let method := "GET" in
  let uri := "/containers/" +:+ name +:+ "/json" in
  let* r := newRequest env docker method uri VNull in
  match r with
  | Err e => ret (Err e)
  | Ok (respBody, conn) =>
      let decoded :=
        fst (json.Decode Unmarshal_Container
               (json.NewDecoder (rc_data respBody))) in
      let out :=
        match decoded with
        | Err e => Err e
        | Ok container => Ok container
        end in
      let* _ := emit (ConnClosed conn) in
      let* _ := emit (BodyClosed (rc_conn respBody)) in
      ret out
  end.

Definition FetchAllContainers : M (result (list (option Container))) :=
  let method := "GET" in
  let uri := "/containers/json" in
  let* r := newRequest env docker method uri VNull in
  match r with
  | Err e => ret (Err e)
  | Ok (respBody, conn) =>
      let decoded :=
        fst (json.Decode Unmarshal_Containers
               (json.NewDecoder (rc_data respBody))) in
      let out :=
        match decoded with
        | Err e => Err e
        | Ok containers => Ok containers
        end in
      let* _ := emit (ConnClosed conn) in
      let* _ := emit (BodyClosed (rc_conn respBody)) in
      ret out
  end.

Definition Info : M (result (option DaemonInfo)) :=
  let method := "GET" in
  let uri := "/info" in
  let* r := newRequest env docker method uri VNull in
  match r with
  | Err e => ret (Err e)
  | Ok (respBody, conn) =>
      let decoded :=
        fst (json.Decode Unmarshal_DaemonInfo
               (json.NewDecoder (rc_data respBody))) in
      let out :=
        match decoded with
        | Err e => Err e
        | Ok info => Ok info
        end in
      let* _ := emit (ConnClosed conn) in
      let* _ := emit (BodyClosed (rc_conn respBody)) in
      ret out
  end.

End Fetch.

(** [ContainerLogs], up to the request it makes: [tailStr] is the decimal
    text of [tail], replaced by "all" when [tail] is -1, and the flags are
    formatted with [%v]. *)
Definition ContainerLogs_tailStr (tail : Z) : string :=
  let tailStr := itoa tail in
  if decide (tail = -1) then "all" else tailStr.

Definition ContainerLogs_uri (id : string)
    (follow stdout stderr timestamps : bool) (tail : Z) : string :=
  "/containers/" +:+ id +:+ "/logs?follow=" +:+ FormatBool follow
  +:+ "&stdout=" +:+ FormatBool stdout +:+ "&stderr=" +:+ FormatBool stderr
  +:+ "&timestamps=" +:+ FormatBool timestamps
  +:+ "&tail=" +:+ ContainerLogs_tailStr tail.

(** ** More readings of a trace *)

(** The dial attempts, the requests written on a connection and the bodies
    closed. *)
Definition dials (t : list effect) : list (string * string * option conn) :=
  omap (fun e => match e with
                 | Dialed proto addr c => Some (proto, addr, c)
                 | _ => None
                 end) t.

Definition sent (t : list effect) : list (conn * http.Request) :=
  omap (fun e => match e with
                 | Sent c req => Some (c, req)
                 | _ => None
                 end) t.

Definition body_closed (c : conn) (e : effect) : bool :=
  match e with
  | BodyClosed c' => bool_decide (c' = c)
  | _ => false
  end.

Definition body_closes (c : conn) (t : list effect) : nat :=
  length (List.filter (body_closed c) t).

(** The connections dialled and not closed. *)
Definition left_open (c : conn) (t : list effect) : Z :=
  Z.of_nat (opens c t) - Z.of_nat (closes c t).

(** The events among the values of a body that unmarshal. *)
Definition decodable (env : Env) (vs : list value) : list (option Event) :=
  omap (fun v => match Unmarshal_Event env v with
                 | Ok ev => Some ev
                 | Err _ => None
                 end) vs.

(** What the three read operations have in common: a GET of [uri] with no
    body; the error of the request handed back with nothing decoded; and,
    once the request is accepted, the verdict of the decoder on the first
    value of the body, with the connection and the body closed once each
    and nothing left open. *)
Definition fetches {A : Type} (env : Env) (docker : dockerClient)
    (uri : string) (unmarshal : value -> result A) (op : M (result A))
    : Prop :=
  forall w : World,
    let r := newRequest env docker "GET" uri VNull w in
    requests (trace (op w).2) = requests (trace w) ++ [("GET", uri)]
    /\ store (op w).2 = store w
    /\ match r.1 with
       | Err e => op w = (Err e, r.2)
       | Ok (respBody, c) =>
           (op w).1
           = (json.Decode unmarshal (json.NewDecoder (rc_data respBody))).1
           /\ forall c',
                let one := if decide (c' = c) then 1%nat else 0%nat in
                left_open c' (trace (op w).2) = left_open c' (trace w)
                /\ closes c' (trace (op w).2) = (closes c' (trace w) + one)%nat
                /\ body_closes c' (trace (op w).2)
                   = (body_closes c' (trace w) + one)%nat
       end.

(** ** More daemons *)

Module Faulty.

(** A JSON library that cannot marshal the body. *)
Definition unmarshallable : Env :=
  {| json_Marshal := fun _ =>
       Err (ErrorString "json: unsupported type: chan int");
     http_NewRequest := fun _ _ => None;
     net_Dial := fun _ _ _ => None;
     conn_Do := fun _ _ _ => Err (ErrorString "unreachable");
     Unmarshal_createResp := Scripted.unmarshal_createResp;
     Unmarshal_Event := Scripted.unmarshal_Event |}.

(** A daemon that answers 201 to every request, with the given body. *)
Definition created (body : list json.chunk) : Env :=
  Scripted.answering (Scripted.response 201 "201 Created" body).

Definition unmarshal_Container (v : value) : result (option Container) :=
  match v with
  | VNull => Ok None
  | VObj m =>
      match Scripted.field m "Id", Scripted.field m "Name" with
      | Ok i, Ok n =>
          Ok (Some {| Id := i; Name := n;
                      Container_NetworkSettings := None;
                      Container_State := {| Running := false |};
                      Config := {| Image := ""; AttachStderr := false;
                                   AttachStdin := false;
                                   AttachStdout := false |};
                      HostConfig := {| PortBindings := ∅ |} |})
      | Err e, _ | _, Err e => Err e
      end
  | _ => Err (ErrorString "json: cannot unmarshal into Go value of type docker.Container")
  end.

Definition unmarshal_Containers (v : value)
    : result (list (option Container)) :=
  match v with
  | VNull | VArr [] => Ok []
  | _ => Err (ErrorString "json: cannot unmarshal into Go value of type []*docker.Container")
  end.

Definition unmarshal_DaemonInfo (v : value) : result (option DaemonInfo) :=
  match v with
  | VNull => Ok None
  | _ => Err (ErrorString "json: cannot unmarshal into Go value of type docker.DaemonInfo")
  end.

End Faulty.

(** * Properties *)

(** ** Address parsing *)

Module strings_facts.
Import strings.

Lemma length_substring (s : string) (n m : nat) :
  String.length (String.substring n m s) = (m `min` (String.length s - n))%nat.
Proof.
  revert n m. induction s as [|c s IH]; intros [|n] [|m]; simpl; try done.
  all: by rewrite IH, ?Nat.sub_0_r.
Qed.

Lemma length_from (n : nat) (s : string) :
  String.length (from n s) = (String.length s - n)%nat.
Proof.
  revert s. induction n as [|n IH]; intros [|c s]; simpl; try done.
Qed.

(** An occurrence of a non-empty separator lies inside the string. *)
Lemma Index_bound (s sep : string) (i : nat) :
  sep <> "" ->
  Index s sep = Some i -> (i + String.length sep <= String.length s)%nat.
Proof.
  intros Hsep H. apply String.index_correct1 in H.
  apply (f_equal String.length) in H. rewrite length_substring in H.
  assert (0 < String.length sep)%nat by (destruct sep; [done|simpl; lia]).
  lia.
Qed.

(** The bound on the rounds of [Count] is never the reason it stops. *)
Lemma Count_loop_rounds (sep : string) (r r' : nat) (s : string) :
  sep <> "" ->
  (String.length s < r)%nat -> (String.length s < r')%nat ->
  Count_loop r s sep = Count_loop r' s sep.
Proof.
  intros Hsep. revert r' s.
  induction r as [|r IH]; intros [|r'] s Hr Hr'; try lia.
  simpl. destruct (Index s sep) as [i|] eqn:Hi; [|done].
  f_equal. pose proof (Index_bound _ _ _ Hsep Hi) as Hb.
  assert (0 < String.length sep)%nat by (destruct sep; [done|simpl; lia]).
  apply IH; rewrite length_from; lia.
Qed.

(** [Split] by its first occurrence. *)
Lemma Split_none (s sep : string) :
  Index s sep = None -> Split s sep = [s].
Proof.
  intros H. unfold Split, Count. simpl. by rewrite H.
Qed.

Lemma Split_some (s sep : string) (m : nat) :
  sep <> "" ->
  Index s sep = Some m ->
  Split s sep = upto m s :: Split (from (m + String.length sep) s) sep.
Proof.
  intros Hsep H. unfold Split at 1. unfold Count at 1. simpl. rewrite H.
  simpl. rewrite H. f_equal.
  pose proof (Index_bound _ _ _ Hsep H) as Hb.
  assert (0 < String.length sep)%nat by (destruct sep; [done|simpl; lia]).
  unfold Split, Count. f_equal.
  apply Count_loop_rounds; [done| |]; rewrite ?length_from; lia.
Qed.

Lemma Split_cons (s sep : string) :
  sep <> "" -> exists a rest, Split s sep = a :: rest.
Proof.
  intros Hsep. destruct (Index s sep) as [m|] eqn:H.
  - eexists _, _. by apply Split_some.
  - eexists _, _. by apply Split_none.
Qed.

End strings_facts.

Lemma separator_nonempty : "://" <> "".
Proof. done. Qed.

(** [ParseURL] returns on every input, and what it returns are the first
    two segments. *)
Lemma ParseURL_by_segments (url : string) :
  ParseURL url = Returns (ParseURL_segments url).
Proof.
  unfold ParseURL, ParseURL_segments.
  destruct (strings.Index url "://") as [m|] eqn:Hm.
  - rewrite (strings_facts.Split_some _ _ _ separator_nonempty Hm).
    change (String.length "://") with 3%nat.
    set (rest := strings.from (m + 3) url).
    destruct (strings.Index rest "://") as [k|] eqn:Hk.
    + by rewrite (strings_facts.Split_some _ _ _ separator_nonempty Hk).
    + by rewrite (strings_facts.Split_none _ _ Hk).
  - by rewrite (strings_facts.Split_none _ _ Hm).
Qed.

(** C5, as amended: ParseURL splits on every "://"; without a separator it
    returns the whole string with the "unix" scheme; with one it returns the
    text before the first separator as the scheme ("http" read as "tcp")
    and the text between the first separator and the next one, or the end
    of the string when there is no other, as the endpoint; it returns on
    every input, so there is no error case. *)
Theorem ParseURL_splits_on_every_separator (url : string) :
  match strings.Index url "://" with
  | None => ParseURL url = Returns ("unix", url)
  | Some m =>
      let scheme := strings.upto m url in
      let rest := strings.from (m + 3) url in
      ParseURL url
      = Returns (if decide (scheme = "http") then "tcp" else scheme,
                 match strings.Index rest "://" with
                 | None => rest
                 | Some k => strings.upto k rest
                 end)
  end.
Proof.
  rewrite ParseURL_by_segments. unfold ParseURL_segments.
  by destruct (strings.Index url "://").
Qed.

(** C5, the claim as stated fails: with two separators the endpoint is cut
    at the second one. *)
Lemma ParseURL_cuts_at_second_separator :
  ParseURL "tcp://a://b" = Returns ("tcp", "a")
  /\ ParseURL_spec "tcp://a://b" = ("tcp", "a://b")
  /\ ParseURL "tcp://a://b" <> Returns (ParseURL_spec "tcp://a://b").
Proof. vm_compute. split; [done|]. split; [done|]. discriminate. Qed.

(** With a single separator the two readings agree. *)
Lemma ParseURL_single_separator (url : string) (m : nat) :
  strings.Index url "://" = Some m ->
  strings.Index (strings.from (m + 3) url) "://" = None ->
  ParseURL url = Returns (ParseURL_spec url).
Proof.
  intros H1 H2. rewrite ParseURL_by_segments.
  unfold ParseURL_segments, ParseURL_spec. rewrite H1. simpl. by rewrite H2.
Qed.

Lemma ParseURL_no_separator (url : string) :
  strings.Index url "://" = None -> ParseURL url = Returns ("unix", url).
Proof.
  intros H. rewrite ParseURL_by_segments.
  unfold ParseURL_segments. by rewrite H.
Qed.

(** The scheme is the text before the first occurrence: no separator starts
    at an earlier offset. *)
Lemma ParseURL_first_occurrence (url : string) (m p : nat) :
  strings.Index url "://" = Some m -> (p < m)%nat ->
  String.substring p 3 url <> "://".
Proof.
  intros H Hp. apply (String.index_correct2 _ _ _ _ H p); lia.
Qed.

Lemma ParseURL_returns (url : string) :
  returned ("", "") (ParseURL url) = ParseURL_segments url.
Proof. by rewrite ParseURL_by_segments. Qed.

(** ** Daemon information *)

Lemma RootPath_rows_in_range (rows : list (list string)) :
  Forall (fun row => (2 <= length row)%nat) rows ->
  RootPath_rows rows = Returns (root_dir_entry rows).
Proof.
  induction 1 as [|row rows Hrow _ IH]; [done|].
  destruct row as [|k [|v row]]; simpl in Hrow; try lia.
  unfold root_dir_entry, is_root_dir. simpl.
  destruct (decide (k = "Root Dir")) as [->|Hk].
  - by rewrite bool_decide_eq_true_2.
  - rewrite bool_decide_eq_false_2 by congruence. apply IH.
Qed.

Lemma RootPath_rows_out_of_range (pre post : list (list string))
    (row : list string) :
  Forall (fun r => exists k, r !! 0%nat = Some k /\ k <> "Root Dir") pre ->
  row = [] \/ row = ["Root Dir"] ->
  RootPath_rows (pre ++ row :: post) = Panics.
Proof.
  intros Hpre Hrow. induction Hpre as [|r pre (k & Hk & Hne) _ IH]; simpl.
  - by destruct Hrow as [-> | ->].
  - rewrite Hk. by rewrite decide_False.
Qed.

(** A panic is exactly a row without a first element, or a "Root Dir" row
    without a second one, with no "Root Dir" row before it. *)
Lemma RootPath_rows_panics (rows : list (list string)) :
  RootPath_rows rows = Panics ->
  exists pre row post,
    rows = pre ++ row :: post
    /\ Forall (fun r => exists k, r !! 0%nat = Some k /\ k <> "Root Dir") pre
    /\ (row = [] \/ row = ["Root Dir"]).
Proof.
  induction rows as [|i rest IH]; [done|]. simpl.
  destruct i as [|k i]; simpl.
  - intros _. exists [], [], rest. by auto.
  - destruct (decide (k = "Root Dir")) as [->|Hk].
    + destruct i as [|v i]; simpl; [|done].
      intros _. exists [], ["Root Dir"], rest. by auto.
    + intros H. destruct (IH H) as (pre & row & post & -> & Hpre & Hrow).
      exists ((k :: i) :: pre), row, post. split; [done|]. split; [|done].
      constructor; [|done]. by exists k.
Qed.

(** C9, as amended: when every row of DriverStatus has at least two
    elements, RootPath returns the second element of the first row whose
    first element is "Root Dir", and the empty string when there is no such
    row.  The two index expressions are unchecked: RootPath panics exactly
    when the loop reaches, before any "Root Dir" row, a row without a first
    element or a "Root Dir" row without a second one; so the precondition
    is enough to rule the panic out, and is not needed for it. *)
Theorem RootPath_root_dir (d : DaemonInfo) :
  (Forall (fun row => (2 <= length row)%nat) (DriverStatus d) ->
   RootPath d = Returns (root_dir_entry (DriverStatus d)))
  /\ (RootPath d = Panics <->
      exists pre row post,
        DriverStatus d = pre ++ row :: post
        /\ Forall (fun r => exists k, r !! 0%nat = Some k /\ k <> "Root Dir") pre
        /\ (row = [] \/ row = ["Root Dir"])).
Proof.
  split; [apply RootPath_rows_in_range|]. split.
  - apply RootPath_rows_panics.
  - intros (pre & row & post & Hd & Hpre & Hrow). unfold RootPath.
    rewrite Hd. by apply RootPath_rows_out_of_range.
Qed.

Lemma RootPath_root_dir_witness :
  RootPath info_aufs = Returns "/var/lib/docker/aufs"
  /\ RootPath info_short_row = Panics
  /\ RootPath info_empty_row = Panics.
Proof.
  split; [|split].
  - refine (proj1 (RootPath_root_dir info_aufs) _). simpl.
    repeat constructor.
  - apply (proj2 (RootPath_root_dir info_short_row)).
    exists [["Dirs"; "12"]], ["Root Dir"], [].
    split; [reflexivity|]. split; [|by right].
    repeat constructor. by exists "Dirs".
  - apply (proj2 (RootPath_root_dir info_empty_row)).
    exists [["Dirs"; "12"]], [], [["Root Dir"; "/var/lib/docker/aufs"]].
    split; [reflexivity|]. split; [|by left].
    repeat constructor. by exists "Dirs".
Defined.

(** C9, the claim as stated fails: the single row ["Dirs"] has one element,
    so the precondition does not hold, and RootPath returns the empty string
    without a panic: the panic is unreachable outside the precondition
    too. *)
Lemma RootPath_safe_without_precondition :
  ~ Forall (fun row => (2 <= length row)%nat)
      (DriverStatus (info_with [["Dirs"]]))
  /\ RootPath (info_with [["Dirs"]]) = Returns ""
  /\ RootPath (info_with [["Dirs"]]) <> Panics.
Proof.
  split; [|split; [reflexivity|discriminate]].
  intros H. apply Forall_cons in H as [H _]. simpl in H. lia.
Qed.

(** A short row that the loop does not index past its end is harmless. *)
Example RootPath_short_row_unreached :
  RootPath (info_with [["Dirs"]; ["Root Dir"; "/var/lib/docker/aufs"]; []])
  = Returns "/var/lib/docker/aufs".
Proof. reflexivity. Qed.

(** ** The request executor *)

Lemma isOkStatus_allow_list (code : Z) :
  isOkStatus code = true <-> code = 200 \/ code = 201 \/ code = 204.
Proof.
  unfold isOkStatus, codes. split.
  - intros H.
    destruct (decide (code = 200)) as [|H1]; [by left|].
    destruct (decide (code = 201)) as [|H2]; [by right; left|].
    destruct (decide (code = 204)) as [|H3]; [by right; right|].
    exfalso. revert H. rewrite !lookup_insert_ne by done.
    destruct (decide (code = 400)) as [->|]; [done|].
    rewrite lookup_insert_ne by done.
    destruct (decide (code = 404)) as [->|]; [done|].
    rewrite lookup_insert_ne by done.
    destruct (decide (code = 500)) as [->|]; [done|].
    rewrite lookup_insert_ne by done.
    destruct (decide (code = 409)) as [->|]; [done|].
    rewrite lookup_insert_ne by done.
    destruct (decide (code = 406)) as [->|]; [done|].
    by rewrite lookup_singleton_ne.
  - by intros [-> | [-> | ->]].
Qed.

(** Listed and unlisted failure codes read alike. *)
Lemma isOkStatus_rejects (code : Z) :
  ~ (code = 200 \/ code = 201 \/ code = 204) -> isOkStatus code = false.
Proof.
  intros H. destruct (isOkStatus code) eqn:E; [|done].
  by apply isOkStatus_allow_list in E.
Qed.

(** A call that gets as far as a response: the result is decided by the
    status check alone, and the connection is dialled, written to and left
    open. *)
Lemma newRequest_answered (env : Env) (docker : dockerClient)
    (method uri : string) (body : value) (w : World)
    (bodyJson : string) (resp : http.Response) :
  let address := ParseURL_segments (path docker) in
  let req := {| http.Method := method; http.URI := uri;
                http.ContentType := "application/json";
                http.Payload := bodyJson |} in
  let c := dialed w in
  let t1 := trace w ++ [Requested method uri body] in
  let t2 := t1 ++ [Dialed address.1 address.2 (Some c)] in
  json_Marshal env body = Ok bodyJson ->
  http_NewRequest env method uri = None ->
  net_Dial env t1 address.1 address.2 = None ->
  conn_Do env t2 c req = Ok resp ->
  newRequest env docker method uri body w
  = (if isOkStatus (http.StatusCode resp)
     then Ok ({| rc_conn := c; rc_data := http.Body resp |}, c)
     else Err (status_error resp),
     {| store := store w; dialed := S c; trace := t2 ++ [Sent c req] |}).
Proof.
  intros address req c t1 t2 Hm Hn Hd Hdo.
  unfold newRequest, bind, emit, newConn, Do, ret. simpl.
  rewrite Hm, Hn, ParseURL_returns. fold address.
  destruct address as [proto addr] eqn:Ha. simpl in *.
  fold t1. rewrite Hd. simpl. unfold t2, c, req in Hdo. rewrite Hdo.
  by destruct (isOkStatus _).
Qed.

(** C1: whatever status code the daemon answers with, newRequest returns the
    response body and the connection, both still open, exactly when the code
    is 200, 201 or 204; with any other code, listed in isOkStatus or not, it
    returns the error "invalid HTTP request <code> <status text>". *)
Theorem newRequest_status_check (env : Env) (docker : dockerClient)
    (method uri : string) (body : value) (w : World)
    (bodyJson : string) (resp : http.Response) :
  let address := ParseURL_segments (path docker) in
  let req := {| http.Method := method; http.URI := uri;
                http.ContentType := "application/json";
                http.Payload := bodyJson |} in
  let c := dialed w in
  let t1 := trace w ++ [Requested method uri body] in
  let t2 := t1 ++ [Dialed address.1 address.2 (Some c)] in
  json_Marshal env body = Ok bodyJson ->
  http_NewRequest env method uri = None ->
  net_Dial env t1 address.1 address.2 = None ->
  conn_Do env t2 c req = Ok resp ->
  let code := http.StatusCode resp in
  let out := newRequest env docker method uri body w in
  (code = 200 \/ code = 201 \/ code = 204 ->
   out.1 = Ok ({| rc_conn := c; rc_data := http.Body resp |}, c))
  /\ (~ (code = 200 \/ code = 201 \/ code = 204) ->
      out.1 = Err (ErrorString ("invalid HTTP request " +:+ itoa code
                                +:+ " " +:+ http.Status resp)))
  /\ trace out.2 = t2 ++ [Sent c req].
Proof.
  intros address req c t1 t2 Hm Hn Hd Hdo code out. subst out.
  rewrite (newRequest_answered env docker method uri body w bodyJson resp
             Hm Hn Hd Hdo).
  fold code. simpl. split; [|split]; [| |done].
  - intros Hc. apply isOkStatus_allow_list in Hc. by rewrite Hc.
  - intros Hc. apply isOkStatus_rejects in Hc. by rewrite Hc.
Qed.

Lemma newRequest_status_check_witness :
  (newRequest (Scripted.answering
                 (Scripted.response 418 "418 I'm a teapot" []))
     Scripted.client "GET" "/info" VNull (Scripted.world ∅)).1
  = Err (ErrorString "invalid HTTP request 418 418 I'm a teapot")
  /\ (newRequest (Scripted.answering (Scripted.response 204 "204 No Content" []))
        Scripted.client "DELETE" "/containers/c1?force=false&volumes=false"
        VNull (Scripted.world ∅)).1
     = Ok ({| rc_conn := 0%nat; rc_data := [] |}, 0%nat).
Proof.
  split.
  - refine (proj1 (proj2 (newRequest_status_check
              (Scripted.answering (Scripted.response 418 "418 I'm a teapot" []))
              Scripted.client "GET" "/info" VNull (Scripted.world ∅) "null"
              (Scripted.response 418 "418 I'm a teapot" [])
              eq_refl eq_refl eq_refl eq_refl)) _).
    simpl. lia.
  - refine (proj1 (newRequest_status_check
              (Scripted.answering (Scripted.response 204 "204 No Content" []))
              Scripted.client "DELETE" "/containers/c1?force=false&volumes=false"
              VNull (Scripted.world ∅) "null"
              (Scripted.response 204 "204 No Content" [])
              eq_refl eq_refl eq_refl eq_refl) _).
    simpl. lia.
Defined.

(** *** What a call of newRequest leaves behind *)

Lemma closes_app (c : conn) (t1 t2 : list effect) :
  closes c (t1 ++ t2) = (closes c t1 + closes c t2)%nat.
Proof. unfold closes. by rewrite List.filter_app, length_app. Qed.

Lemma opens_app (c : conn) (t1 t2 : list effect) :
  opens c (t1 ++ t2) = (opens c t1 + opens c t2)%nat.
Proof. unfold opens. by rewrite List.filter_app, length_app. Qed.

Ltac run_newRequest :=
  unfold newRequest, bind, emit, newConn, Do, ret; simpl;
  repeat (case_match; simplify_eq/=).

Lemma newRequest_store (env : Env) (docker : dockerClient)
    (method uri : string) (body : value) (w : World) :
  store (newRequest env docker method uri body w).2 = store w.
Proof. by run_newRequest. Qed.

Lemma newRequest_requests (env : Env) (docker : dockerClient)
    (method uri : string) (body : value) (w : World) :
  requests (trace (newRequest env docker method uri body w).2)
  = requests (trace w) ++ [(method, uri)].
Proof.
  unfold requests. run_newRequest; by rewrite !omap_app, ?app_nil_r.
Qed.

(** The first thing a call leaves in the trace is its own request. *)
Lemma newRequest_first_effect (env : Env) (docker : dockerClient)
    (method uri : string) (body : value) (w : World) :
  trace (newRequest env docker method uri body w).2 !! length (trace w)
  = Some (Requested method uri body).
Proof.
  run_newRequest; rewrite <- ?app_assoc; simpl; by apply list_lookup_middle.
Qed.

(** newRequest closes nothing itself. *)
Lemma newRequest_closes (env : Env) (docker : dockerClient)
    (method uri : string) (body : value) (w : World) (c : conn) :
  closes c (trace (newRequest env docker method uri body w).2)
  = closes c (trace w).
Proof.
  run_newRequest; rewrite ?closes_app; unfold closes; simpl; lia.
Qed.

(** ** Pull image *)

(** Whatever the request does, PullImage returns nil. *)
Lemma PullImage_returns_nil (env : Env) (docker : dockerClient)
    (name : string) (w : World) :
  (PullImage env docker name w).1 = None.
Proof.
  unfold PullImage, bind.
  by destruct (newRequest _ _ _ _ _ _) as [[[respBody c]|e] w'].
Qed.

(** RemoveContainer, written next to it, returns the error of its request. *)
Lemma RemoveContainer_returns_request_error (env : Env)
    (docker : dockerClient) (name : string) (force volumes : bool)
    (w : World) (e : error) :
  let uri := "/containers/" +:+ name +:+ "?force=" +:+ FormatBool force
             +:+ "&volumes=" +:+ FormatBool volumes in
  (newRequest env docker "DELETE" uri VNull w).1 = Err e ->
  RemoveContainer env docker name force volumes w
  = (Some e, (newRequest env docker "DELETE" uri VNull w).2).
Proof.
  intros uri H. subst uri. unfold RemoveContainer, bind. cbv zeta.
  by destruct (newRequest _ _ _ _ _ _) as [[[respBody c]|e'] w'];
    simplify_eq/=.
Qed.

(** C2: with no daemon listening the request of PullImage fails at the dial,
    and PullImage returns nil all the same, where the claim has it return
    the failure; RemoveContainer on the same daemon returns the error. *)
Theorem PullImage_drops_request_failure :
  let w := Scripted.world ∅ in
  let refused :=
    ErrorString "dial unix /var/run/docker.sock: connection refused" in
  (newRequest Scripted.refusing Scripted.client "POST"
     "/images/create?fromImage=busybox" VNull w).1 = Err refused
  /\ (PullImage Scripted.refusing Scripted.client "busybox" w).1 = None
  /\ (RemoveContainer Scripted.refusing Scripted.client "busybox" false false w).1
     = Some refused.
Proof. vm_compute. by repeat split. Qed.

(** The same on a rejected status. *)
Example PullImage_drops_status_error :
  let env := Scripted.answering (Scripted.response 404 "404 Not Found" []) in
  let w := Scripted.world ∅ in
  (newRequest env Scripted.client "POST"
     "/images/create?fromImage=nosuchimage" VNull w).1
  = Err (ErrorString "invalid HTTP request 404 404 Not Found")
  /\ (PullImage env Scripted.client "nosuchimage" w).1 = None.
Proof. vm_compute. by split. Qed.

(** ** Connections *)

(** A caller that gets an error back closes nothing. *)
Lemma RemoveContainer_failure_closes_nothing (env : Env)
    (docker : dockerClient) (name : string) (force volumes : bool)
    (w : World) (e : error) (c : conn) :
  (RemoveContainer env docker name force volumes w).1 = Some e ->
  closes c (trace (RemoveContainer env docker name force volumes w).2)
  = closes c (trace w).
Proof.
  unfold RemoveContainer, bind.
  destruct (newRequest _ _ _ _ _ _) as [[[respBody c']|e'] w'] eqn:E;
    simpl; [done|]. intros _.
  pose proof (newRequest_closes env docker "DELETE"
    ("/containers/" +:+ name +:+ "?force=" +:+ FormatBool force
     +:+ "&volumes=" +:+ FormatBool volumes) VNull w c) as H.
  by rewrite E in H.
Qed.

(** When the status check rejects the response, the connection has been
    dialled and is not closed; the caller is handed no connection to
    close. *)
Lemma newRequest_rejected_keeps_connection_open (env : Env)
    (docker : dockerClient) (method uri : string) (body : value) (w : World)
    (bodyJson : string) (resp : http.Response) :
  let address := ParseURL_segments (path docker) in
  let req := {| http.Method := method; http.URI := uri;
                http.ContentType := "application/json";
                http.Payload := bodyJson |} in
  let c := dialed w in
  let t1 := trace w ++ [Requested method uri body] in
  let t2 := t1 ++ [Dialed address.1 address.2 (Some c)] in
  json_Marshal env body = Ok bodyJson ->
  http_NewRequest env method uri = None ->
  net_Dial env t1 address.1 address.2 = None ->
  conn_Do env t2 c req = Ok resp ->
  isOkStatus (http.StatusCode resp) = false ->
  let out := newRequest env docker method uri body w in
  opens c (trace out.2) = S (opens c (trace w))
  /\ closes c (trace out.2) = closes c (trace w).
Proof.
  intros address req c t1 t2 Hm Hn Hd Hdo Hc out. split.
  - subst out.
    rewrite (newRequest_answered env docker method uri body w bodyJson resp
               Hm Hn Hd Hdo).
    simpl. unfold t2, t1.
    rewrite !opens_app. unfold opens at 2 3 4. simpl.
    rewrite bool_decide_eq_true_2 by done. simpl. lia.
  - apply newRequest_closes.
Qed.

(** C3: the daemon answers 404 to a RemoveContainer.  Connection 0 was
    opened for the request and is never closed, where the claim has every
    opened connection closed exactly once. *)
Theorem rejected_request_leaks_connection :
  let env := Scripted.answering (Scripted.response 404 "404 Not Found" []) in
  let out := RemoveContainer env Scripted.client "c1" false false
               (Scripted.world ∅) in
  out.1 = Some (ErrorString "invalid HTTP request 404 404 Not Found")
  /\ opens 0%nat (trace out.2) = 1%nat
  /\ closes 0%nat (trace out.2) = 0%nat.
Proof. vm_compute. by repeat split. Qed.

(** On the paths that do return the connection, the caller closes it
    once. *)
Example accepted_request_closes_connection :
  let env := Scripted.answering (Scripted.response 204 "204 No Content" []) in
  let out := RemoveContainer env Scripted.client "c1" false false
               (Scripted.world ∅) in
  out.1 = None
  /\ opens 0%nat (trace out.2) = 1%nat
  /\ closes 0%nat (trace out.2) = 1%nat.
Proof. vm_compute. by repeat split. Qed.

(** ** Create container *)

(** CreateContainer in one step: the request, then the decoding and the two
    deferred closes when the request succeeded. *)
Lemma CreateContainer_run (env : Env) (docker : dockerClient)
    (container : loc) (w : World) :
  let r := newRequest env docker "POST" (create_uri (has_Name container w))
             (create_body container w) (without_Name container w) in
  CreateContainer env docker container w
  = match r.1 with
    | Err e => (("", Some e), r.2)
    | Ok (respBody, c) =>
        (match (json.Decode (Unmarshal_createResp env)
                  (json.NewDecoder (rc_data respBody))).1 with
         | Err e => ("", Some e)
         | Ok id => (id, None)
         end,
         {| store := store r.2; dialed := dialed r.2;
            trace := (trace r.2 ++ [ConnClosed c])
                     ++ [BodyClosed (rc_conn respBody)] |})
    end.
Proof.
  unfold CreateContainer, bind, map_has, map_delete, map_value, emit, ret.
  cbv zeta. simpl. fold (has_Name container w).
  fold (without_Name container w). fold (create_body container w).
  replace (if has_Name container w
           then "/containers/create" +:+ "?name=" +:+ ""
           else "/containers/create")
    with (create_uri (has_Name container w)) by by destruct (has_Name _ _).
  by destruct (newRequest _ _ _ _ _ _) as [[[respBody c]|e] w'].
Qed.

Lemma CreateContainer_store (env : Env) (docker : dockerClient)
    (container : loc) (w : World) :
  store (CreateContainer env docker container w).2
  = alter (delete "Name") container (store w).
Proof.
  rewrite CreateContainer_run. cbv zeta.
  pose proof (newRequest_store env docker "POST"
    (create_uri (has_Name container w)) (create_body container w)
    (without_Name container w)) as H.
  by destruct (newRequest _ _ _ _ _ _) as [[[respBody c]|e] w'].
Qed.

Lemma CreateContainer_requests (env : Env) (docker : dockerClient)
    (container : loc) (w : World) :
  requests (trace (CreateContainer env docker container w).2)
  = requests (trace w) ++ [("POST", create_uri (has_Name container w))].
Proof.
  rewrite CreateContainer_run. cbv zeta.
  pose proof (newRequest_requests env docker "POST"
    (create_uri (has_Name container w)) (create_body container w)
    (without_Name container w)) as H.
  destruct (newRequest _ _ _ _ _ _) as [[[respBody c]|e] w']; simpl in *;
    [|done].
  unfold requests in *. rewrite !omap_app, H. simpl. by rewrite !app_nil_r.
Qed.

Lemma CreateContainer_first_effect (env : Env) (docker : dockerClient)
    (container : loc) (w : World) :
  trace (CreateContainer env docker container w).2 !! length (trace w)
  = Some (Requested "POST" (create_uri (has_Name container w))
            (create_body container w)).
Proof.
  rewrite CreateContainer_run. cbv zeta.
  pose proof (newRequest_first_effect env docker "POST"
    (create_uri (has_Name container w)) (create_body container w)
    (without_Name container w)) as H.
  destruct (newRequest _ _ _ _ _ _) as [[[respBody c]|e] w']; simpl in *;
    [|done].
  rewrite <- app_assoc. rewrite lookup_app_l; [done|].
  by apply lookup_lt_Some in H.
Qed.

(** For a specification with a "Name", whatever its value: the query is
    "name=" with nothing after it, and the body is the map without the
    key. *)
Lemma CreateContainer_named_request (env : Env) (docker : dockerClient)
    (container : loc) (w : World) (m : gmap string value) (v : value) :
  store w !! container = Some m ->
  m !! "Name" = Some v ->
  trace (CreateContainer env docker container w).2 !! length (trace w)
  = Some (Requested "POST" "/containers/create?name="
            (VObj (delete "Name" m)))
  /\ delete "Name" m !! "Name" = None.
Proof.
  intros Hm Hv. rewrite CreateContainer_first_effect. split.
  - unfold has_Name, create_body, without_Name. simpl.
    rewrite lookup_alter_eq, Hm. simpl. rewrite Hv.
    by rewrite bool_decide_eq_true_2 by done.
  - apply lookup_delete_eq.
Qed.

(** C4: for the specification {Name: "foo", Image, HostConfig} the serialised
    body is the map without "Name", as the claim has it, but the request goes
    to "/containers/create?name=": the query names the parameter and carries
    no value, where the claim has it carry "foo". *)
Theorem CreateContainer_query_has_no_name :
  let env := Scripted.answering
               (Scripted.response 201 "201 Created"
                  [json.JSONValue (VObj {[ "Id" := VStr "abc" ]})]) in
  let out := CreateContainer env Scripted.client 0%nat
               (Scripted.world Scripted.foo_spec) in
  Scripted.foo_spec !! "Name" = Some (VStr "foo")
  /\ out.1 = ("abc", None)
  /\ requests (trace out.2) = [("POST", "/containers/create?name=")]
  /\ trace out.2 !! 0%nat
     = Some (Requested "POST" "/containers/create?name="
               (VObj (delete "Name" Scripted.foo_spec)))
  /\ delete "Name" Scripted.foo_spec !! "Name" = None
  /\ "/containers/create?name=" <> "/containers/create?name=foo".
Proof. vm_compute. by repeat split. Qed.

(** C10: CreateContainer deletes the "Name" key from the map the caller
    passed, whatever becomes of the request, and leaves every other key of
    that map as it was. *)
Theorem CreateContainer_deletes_Name (env : Env) (docker : dockerClient)
    (container : loc) (w : World) (m : gmap string value) :
  store w !! container = Some m ->
  exists m',
    store (CreateContainer env docker container w).2 !! container = Some m'
    /\ m' !! "Name" = None
    /\ forall key, key <> "Name" -> m' !! key = m !! key.
Proof.
  intros Hm. exists (delete "Name" m). split; [|split].
  - by rewrite CreateContainer_store, lookup_alter_eq, Hm.
  - apply lookup_delete_eq.
  - intros key Hkey. by apply lookup_delete_ne.
Qed.

Lemma CreateContainer_deletes_Name_witness :
  (CreateContainer Scripted.refusing Scripted.client 0%nat
     (Scripted.world Scripted.foo_spec)).1
  = ("", Some (ErrorString "dial unix /var/run/docker.sock: connection refused"))
  /\ exists m',
       store (CreateContainer Scripted.refusing Scripted.client 0%nat
                (Scripted.world Scripted.foo_spec)).2 !! 0%nat = Some m'
       /\ m' !! "Name" = None
       /\ forall key, key <> "Name" -> m' !! key = Scripted.foo_spec !! key.
Proof.
  split; [vm_compute; reflexivity|].
  apply (CreateContainer_deletes_Name Scripted.refusing Scripted.client 0%nat
           (Scripted.world Scripted.foo_spec) Scripted.foo_spec).
  vm_compute. reflexivity.
Defined.

(** The maps of other callers are not touched. *)
Lemma CreateContainer_other_maps (env : Env) (docker : dockerClient)
    (container other : loc) (w : World) :
  other <> container ->
  store (CreateContainer env docker container w).2 !! other
  = store w !! other.
Proof.
  intros H. rewrite CreateContainer_store. by apply lookup_alter_ne.
Qed.

(** ** Run container *)

(** Every call of StartContainer enters a request of its own. *)
Lemma StartContainer_requests (env : Env) (docker : dockerClient)
    (name : string) (hostConfig : value) (w : World) :
  requests (trace (StartContainer env docker name hostConfig w).2)
  = requests (trace w) ++ [("POST", "/containers/" +:+ name +:+ "/start")].
Proof.
  unfold StartContainer, bind, emit, ret. cbv zeta.
  pose proof (newRequest_requests env docker "POST"
    ("/containers/" +:+ name +:+ "/start") hostConfig w) as H.
  destruct (newRequest _ _ _ _ _ _) as [[[respBody c]|e] w']; simpl in *;
    [|done].
  unfold requests in *. rewrite !omap_app, H. simpl. by rewrite !app_nil_r.
Qed.

Lemma StartContainer_first_effect (env : Env) (docker : dockerClient)
    (name : string) (hostConfig : value) (w : World) :
  trace (StartContainer env docker name hostConfig w).2 !! length (trace w)
  = Some (Requested "POST" ("/containers/" +:+ name +:+ "/start") hostConfig).
Proof.
  unfold StartContainer, bind, emit, ret. cbv zeta.
  pose proof (newRequest_first_effect env docker "POST"
    ("/containers/" +:+ name +:+ "/start") hostConfig w) as H.
  destruct (newRequest _ _ _ _ _ _) as [[[respBody c]|e] w']; simpl in *;
    [|done].
  rewrite <- app_assoc. rewrite lookup_app_l; [done|].
  by apply lookup_lt_Some in H.
Qed.

(** C6: when CreateContainer fails inside RunContainer, RunContainer returns
    the empty identifier and the error of CreateContainer, and stops where
    CreateContainer stopped: the only request entered is the one of
    CreateContainer, so StartContainer has not been called. *)
Theorem RunContainer_create_failure (env : Env) (docker : dockerClient)
    (config : loc) (w : World) (name : string) (e : error) :
  (CreateContainer env docker config w).1 = (name, Some e) ->
  RunContainer env docker config w
  = (("", Some e), (CreateContainer env docker config w).2)
  /\ requests (trace (RunContainer env docker config w).2)
     = requests (trace w) ++ [("POST", create_uri (has_Name config w))].
Proof.
  intros H.
  assert (RunContainer env docker config w
          = (("", Some e), (CreateContainer env docker config w).2)) as Hrun.
  { unfold RunContainer, bind.
    destruct (CreateContainer env docker config w) as [[name' err] w1].
    by simplify_eq/=. }
  split; [done|]. rewrite Hrun. simpl. apply CreateContainer_requests.
Qed.

Lemma RunContainer_create_failure_witness :
  RunContainer Scripted.refusing Scripted.client 0%nat
    (Scripted.world Scripted.foo_spec)
  = (("", Some (ErrorString "dial unix /var/run/docker.sock: connection refused")),
     (CreateContainer Scripted.refusing Scripted.client 0%nat
        (Scripted.world Scripted.foo_spec)).2)
  /\ requests (trace (RunContainer Scripted.refusing Scripted.client 0%nat
                        (Scripted.world Scripted.foo_spec)).2)
     = [] ++ [("POST", "/containers/create?name=")].
Proof.
  apply (RunContainer_create_failure Scripted.refusing Scripted.client 0%nat
           (Scripted.world Scripted.foo_spec) "").
  vm_compute. reflexivity.
Defined.

(** The same when the request went through and the response does not
    decode. *)
Example RunContainer_decode_failure :
  let env := Scripted.answering
               (Scripted.response 201 "201 Created"
                  [json.Garbage "invalid character '<' looking for beginning of value"]) in
  let out := RunContainer env Scripted.client 0%nat
               (Scripted.world Scripted.foo_spec) in
  out.1 = ("", Some (ErrorString "invalid character '<' looking for beginning of value"))
  /\ requests (trace out.2) = [("POST", "/containers/create?name=")].
Proof. vm_compute. by split. Qed.

(** C7, as amended: when CreateContainer succeeds, RunContainer calls
    StartContainer with the created identifier and the "HostConfig" value of
    the specification as the caller passed it (nil when there is none),
    returns the error of StartContainer, and returns the created identifier
    with it whether StartContainer succeeded or not; nothing undoes the
    creation. *)
Theorem RunContainer_create_success (env : Env) (docker : dockerClient)
    (config : loc) (w : World) (name : string) :
  (CreateContainer env docker config w).1 = (name, None) ->
  let w1 := (CreateContainer env docker config w).2 in
  let hostConfig := default VNull (store w !! config ≫= (.!! "HostConfig")) in
  let started := StartContainer env docker name hostConfig w1 in
  RunContainer env docker config w = ((name, started.1), started.2)
  /\ trace started.2 !! length (trace w1)
     = Some (Requested "POST" ("/containers/" +:+ name +:+ "/start") hostConfig)
  /\ requests (trace started.2)
     = requests (trace w)
       ++ [("POST", create_uri (has_Name config w));
           ("POST", "/containers/" +:+ name +:+ "/start")].
Proof.
  intros H w1 hostConfig started. split; [|split].
  - unfold RunContainer, bind, map_index.
    pose proof (CreateContainer_store env docker config w) as Hs.
    subst started hostConfig w1.
    destruct (CreateContainer env docker config w) as [[name' err] w1].
    simplify_eq/=. rewrite Hs, lookup_alter_eq.
    destruct (store w !! config) as [m|]; simpl.
    + rewrite lookup_delete_ne by done.
      by destruct (StartContainer _ _ _ _ _).
    + by destruct (StartContainer _ _ _ _ _).
  - apply StartContainer_first_effect.
  - unfold started. rewrite StartContainer_requests. unfold w1.
    rewrite CreateContainer_requests. by rewrite <- app_assoc.
Qed.

Lemma RunContainer_create_success_witness :
  RunContainer Scripted.create_then_fail Scripted.client 0%nat
    (Scripted.world Scripted.foo_spec)
  = (("abc", Some (ErrorString "invalid HTTP request 500 500 Internal Server Error")),
     (StartContainer Scripted.create_then_fail Scripted.client "abc"
        (VObj {[ "Privileged" := VBool true ]})
        (CreateContainer Scripted.create_then_fail Scripted.client 0%nat
           (Scripted.world Scripted.foo_spec)).2).2).
Proof.
  refine (proj1 (RunContainer_create_success Scripted.create_then_fail
                   Scripted.client 0%nat (Scripted.world Scripted.foo_spec)
                   "abc" _)).
  vm_compute. reflexivity.
Defined.

(** C7, the claim as stated fails: the daemon creates container "abc" and
    answers 500 to the start; RunContainer returns the identifier "abc"
    together with the error of StartContainer. *)
Lemma RunContainer_returns_identifier_when_start_fails :
  let out := (RunContainer Scripted.create_then_fail Scripted.client 0%nat
                (Scripted.world Scripted.foo_spec)).1 in
  out.1 = "abc"
  /\ out.2 = Some (ErrorString "invalid HTTP request 500 500 Internal Server Error")
  /\ ~ (out.1 = "abc" -> out.2 = None).
Proof.
  vm_compute. split; [done|]. split; [done|]. intros H. by specialize (H eq_refl).
Qed.

(** ** The event stream *)

Lemma after_after (w : World) (es es' : list effect) :
  after (after w es) es' = after w (es ++ es').
Proof. unfold after. simpl. by rewrite app_assoc. Qed.

Lemma after_nil (w : World) : after w [] = w.
Proof. destruct w. unfold after. simpl. by rewrite app_nil_r. Qed.

Ltac fold_after :=
  repeat match goal with
  | |- context [ {| store := store ?w; dialed := dialed ?w;
                    trace := trace ?w ++ ?es |} ] =>
      change {| store := store w; dialed := dialed w; trace := trace w ++ es |}
        with (after w es)
  end.

Section EventLoop.

Context (env : Env).

(** Once the decoder holds a syntax error, every round returns it, logs it
    and comes back: the loop neither sends nor leaves. *)
Lemma events_loop_stuck (rounds : nat) (dec : json.Decoder) (w : World)
    (msg : string) :
  json.err dec = Some (ErrorString msg) ->
  events_loop env rounds dec w
  = (false, after w (replicate rounds (decode_log (ErrorString msg)))).
Proof.
  intros H. revert w. induction rounds as [|r IH]; intros w; simpl.
  - by rewrite after_nil.
  - unfold json.Decode. rewrite H. unfold bind, emit. simpl. fold_after.
    by rewrite IH, after_after.
Qed.

(** A complete value that unmarshals is sent. *)
Lemma events_loop_value (rounds : nat) (v : value) (rest : list json.chunk)
    (ev : option Event) (w : World) :
  Unmarshal_Event env v = Ok ev ->
  events_loop env (S rounds)
    {| json.err := None; json.buf := json.JSONValue v :: rest |} w
  = events_loop env rounds {| json.err := None; json.buf := rest |}
      (after w [ChanSent ev]).
Proof. intros H. simpl. unfold json.Decode. simpl. by rewrite H. Qed.

(** A complete value that does not unmarshal is logged and skipped. *)
Lemma events_loop_mismatch (rounds : nat) (v : value)
    (rest : list json.chunk) (msg : string) (w : World) :
  Unmarshal_Event env v = Err (ErrorString msg) ->
  events_loop env (S rounds)
    {| json.err := None; json.buf := json.JSONValue v :: rest |} w
  = events_loop env rounds {| json.err := None; json.buf := rest |}
      (after w [decode_log (ErrorString msg)]).
Proof. intros H. simpl. unfold json.Decode. simpl. by rewrite H. Qed.

(** Bytes that are no JSON value are logged, and stay in the decoder. *)
Lemma events_loop_garbage (rounds : nat) (msg : string)
    (rest : list json.chunk) (w : World) :
  events_loop env (S rounds)
    {| json.err := None; json.buf := json.Garbage msg :: rest |} w
  = (false, after w (replicate (S rounds) (decode_log (ErrorString msg)))).
Proof.
  simpl. unfold json.Decode. simpl. unfold bind, emit. simpl. fold_after.
  by rewrite (events_loop_stuck _ _ _ msg), after_after.
Qed.

(** The end of the body ends the loop. *)
Lemma events_loop_eof (rounds : nat) (w : World) :
  events_loop env (S rounds) {| json.err := None; json.buf := [] |} w
  = (true, w).
Proof. done. Qed.

(** A body with a syntax error between two events: the first event is
    sent, the second never is, and the loop does not end, however many
    rounds it is given. *)
Lemma events_loop_syntax_error (rounds : nat) (v1 v2 : value)
    (ev1 : option Event) (msg : string) (w : World) :
  Unmarshal_Event env v1 = Ok ev1 ->
  events_loop env (S (S rounds))
    (json.NewDecoder [json.JSONValue v1; json.Garbage msg; json.JSONValue v2]) w
  = (false, after w (ChanSent ev1
                       :: replicate (S rounds) (decode_log (ErrorString msg)))).
Proof.
  intros H1. unfold json.NewDecoder.
  rewrite (events_loop_value _ _ _ _ _ H1), events_loop_garbage.
  by rewrite after_after.
Qed.

(** A body with a well-formed value of the wrong shape between two
    events: both events are sent, in order, and the loop ends at the end
    of the body. *)
Lemma events_loop_skips_mismatch (rounds : nat) (v1 v v2 : value)
    (ev1 ev2 : option Event) (msg : string) (w : World) :
  Unmarshal_Event env v1 = Ok ev1 ->
  Unmarshal_Event env v = Err (ErrorString msg) ->
  Unmarshal_Event env v2 = Ok ev2 ->
  events_loop env (4 + rounds)
    (json.NewDecoder [json.JSONValue v1; json.JSONValue v; json.JSONValue v2]) w
  = (true, after w [ChanSent ev1; decode_log (ErrorString msg); ChanSent ev2]).
Proof.
  intros H1 H H2. unfold json.NewDecoder.
  change (4 + rounds)%nat with (S (S (S (S rounds)))).
  rewrite (events_loop_value _ _ _ _ _ H1), (events_loop_mismatch _ _ _ _ _ H).
  rewrite (events_loop_value _ _ _ _ _ H2), events_loop_eof.
  by rewrite !after_after.
Qed.

End EventLoop.

Lemma delivered_decode_logs (n : nat) (e : error) :
  delivered (replicate n (decode_log e)) = [].
Proof. induction n as [|n IH]; [done|]. apply IH. Qed.

Lemma events_request_accepted (body : list json.chunk) :
  newRequest (Scripted.answering (Scripted.response 200 "200 OK" body))
    Scripted.client "GET" "/events" VNull (Scripted.world ∅)
  = (Ok ({| rc_conn := 0%nat; rc_data := body |}, 0%nat),
     {| store := store (Scripted.world ∅); dialed := 1;
        trace :=
          [Requested "GET" "/events" VNull;
           Dialed "unix" "/var/run/docker.sock" (Some 0%nat);
           Sent 0%nat {| http.Method := "GET"; http.URI := "/events";
                         http.ContentType := "application/json";
                         http.Payload := "null" |}] |}).
Proof. reflexivity. Qed.

(** C8: the body holds the event of "c1", then bytes that are no JSON, then
    the event of "c2".  However many rounds the loop runs, the consumer has
    received the first event only, the same decoding error has been logged in
    every round since, and the goroutine has neither finished nor closed the
    channel, where the claim has the second event delivered. *)
Theorem GetEvents_stuck_after_syntax_error (rounds : nat) :
  let env := Scripted.answering
               (Scripted.response 200 "200 OK" stream_with_syntax_error) in
  let out := GetEvents_producer env Scripted.client (2 + rounds)
               (Scripted.world ∅) in
  out.1 = false
  /\ delivered (trace out.2)
     = [Some {| ContainerId := "c1"; Status := "start" |}]
  /\ ChanClosed ∉ trace out.2.
Proof.
  intros env out. subst out env. unfold GetEvents_producer, bind.
  rewrite events_request_accepted. unfold stream_with_syntax_error.
  change (2 + rounds)%nat with (S (S rounds)). cbn [rc_data].
  rewrite (events_loop_syntax_error _ _ _ _
             (Some {| ContainerId := "c1"; Status := "start" |}))
    by reflexivity.
  unfold ret, after. cbn [fst snd trace app].
  split; [done|]. split.
  - unfold delivered. cbn [omap list_omap]. fold delivered.
    by rewrite delivered_decode_logs.
  - intros Hin.
    repeat (apply elem_of_cons in Hin as [Hin|Hin]; [done|]).
    by apply elem_of_replicate in Hin as [? _].
Qed.

(** With a well-formed value of the wrong shape in the middle, both events
    arrive and the goroutine ends at the end of the body. *)
Example GetEvents_skips_mismatch :
  let env := Scripted.answering
               (Scripted.response 200 "200 OK"
                  [json.JSONValue (Scripted.event "c1" "start");
                   json.JSONValue (VNum 3);
                   json.JSONValue (Scripted.event "c2" "die")]) in
  let out := GetEvents_producer env Scripted.client 10 (Scripted.world ∅) in
  out.1 = true
  /\ delivered (trace out.2)
     = [Some {| ContainerId := "c1"; Status := "start" |};
        Some {| ContainerId := "c2"; Status := "die" |}]
  /\ last (trace out.2) = Some ChanClosed.
Proof. vm_compute. by repeat split. Qed.

(** At the end of the body the goroutine leaves; the connection of the
    stream is still open. *)
Example GetEvents_leaves_connection_open :
  let env := Scripted.answering
               (Scripted.response 200 "200 OK"
                  [json.JSONValue (Scripted.event "c1" "start")]) in
  let out := GetEvents_producer env Scripted.client 10 (Scripted.world ∅) in
  out.1 = true
  /\ opens 0%nat (trace out.2) = 1%nat
  /\ closes 0%nat (trace out.2) = 0%nat.
Proof. vm_compute. by repeat split. Qed.

(** * Further properties *)

(** ** Addresses *)

Lemma append_cons (c : ascii) (s t : string) :
  String c s +:+ t = String c (s +:+ t).
Proof. reflexivity. Qed.

Lemma prefix_cons (a b : ascii) (s1 s2 : string) :
  String.prefix (String a s1) (String b s2)
  = if ascii_dec a b then String.prefix s1 s2 else false.
Proof. reflexivity. Qed.

(** A separator cannot start inside a non-empty text that has none and end
    inside the separator that follows it. *)
Lemma prefix_separator_straddle (c : ascii) (s e : string) :
  String.prefix "://" (String c s +:+ "://" +:+ e) = true ->
  String.prefix "://" (String c s) = true.
Proof.
  destruct s as [|c2 [|c3 s3]].
  - change (String c "" +:+ "://" +:+ e)
      with (String c (String ":" (String "/" (String "/" e)))).
    rewrite !prefix_cons.
    destruct (ascii_dec ":" c); [|done].
    destruct (ascii_dec "/" ":") as [E|]; [discriminate E|done].
  - change (String c (String c2 "") +:+ "://" +:+ e)
      with (String c (String c2 (String ":" (String "/" (String "/" e))))).
    rewrite !prefix_cons.
    destruct (ascii_dec ":" c); [|done].
    destruct (ascii_dec "/" c2); [|done].
    destruct (ascii_dec "/" ":") as [E|]; [discriminate E|done].
  - change (String c (String c2 (String c3 s3)) +:+ "://" +:+ e)
      with (String c (String c2 (String c3 (s3 +:+ "://" +:+ e)))).
    rewrite !prefix_cons.
    destruct (ascii_dec ":" c); [|done].
    destruct (ascii_dec "/" c2); [|done].
    destruct (ascii_dec "/" c3); [|done].
    intros _. by destruct s3.
Qed.

Lemma index_cons (sep : string) (c : ascii) (s : string) :
  String.index 0 sep (String c s)
  = if String.prefix sep (String c s) then Some 0%nat
    else match String.index 0 sep s with
         | Some n => Some (S n)
         | None => None
         end.
Proof. reflexivity. Qed.

Lemma Index_cons_none (c : ascii) (s sep : string) :
  strings.Index (String c s) sep = None ->
  String.prefix sep (String c s) = false /\ strings.Index s sep = None.
Proof.
  unfold strings.Index. rewrite index_cons.
  destruct (String.prefix sep (String c s)); [done|].
  by destruct (String.index 0 sep s).
Qed.

Lemma Index_before_separator (s e : string) :
  strings.Index s "://" = None ->
  strings.Index (s +:+ "://" +:+ e) "://" = Some (String.length s).
Proof.
  induction s as [|c s IH]; intros H; [by destruct e|].
  apply Index_cons_none in H as [Hp Hs].
  unfold strings.Index in *. rewrite append_cons, index_cons.
  rewrite <- append_cons.
  destruct (String.prefix "://" (String c s +:+ "://" +:+ e)) eqn:E.
  - apply prefix_separator_straddle in E. congruence.
  - by rewrite (IH Hs).
Qed.

Lemma upto_app (s t : string) : strings.upto (String.length s) (s +:+ t) = s.
Proof.
  unfold strings.upto. induction s as [|c s IH]; [by destruct t|].
  rewrite append_cons. simpl. by rewrite IH.
Qed.

Lemma from_app (s t : string) (n : nat) :
  strings.from (String.length s + n) (s +:+ t) = strings.from n t.
Proof. induction s as [|c s IH]; [done|]. rewrite append_cons. apply IH. Qed.

(** Two parts without a separator, joined by one, parse back into the
    parts. *)
Lemma ParseURL_joined (scheme endpoint : string) :
  strings.Index scheme "://" = None ->
  strings.Index endpoint "://" = None ->
  ParseURL (scheme +:+ "://" +:+ endpoint)
  = Returns (if decide (scheme = "http") then "tcp" else scheme, endpoint).
Proof.
  intros Hs He. rewrite ParseURL_by_segments. unfold ParseURL_segments.
  rewrite (Index_before_separator _ _ Hs). cbv zeta.
  rewrite upto_app, from_app.
  change (strings.from 3 ("://" +:+ endpoint)) with endpoint.
  by rewrite He.
Qed.

(** X1: an address written as scheme, "://", endpoint, where neither part
    holds a separator, parses back into the two parts, with "http" read as
    "tcp". *)
Theorem ParseURL_round_trip (scheme endpoint : string) :
  strings.Index scheme "://" = None ->
  strings.Index endpoint "://" = None ->
  ParseURL (scheme +:+ "://" +:+ endpoint)
  = Returns (if decide (scheme = "http") then "tcp" else scheme, endpoint).
Proof.
  intros Hs He. rewrite ParseURL_by_segments. unfold ParseURL_segments.
  rewrite (Index_before_separator _ _ Hs). cbv zeta.
  rewrite upto_app, from_app.
  change (strings.from 3 ("://" +:+ endpoint)) with endpoint.
  by rewrite He.
Qed.

Lemma ParseURL_round_trip_witness :
  ParseURL ("http" +:+ "://" +:+ "127.0.0.1:2375")
  = Returns ("tcp", "127.0.0.1:2375")
  /\ ParseURL ("unix" +:+ "://" +:+ "/var/run/docker.sock")
     = Returns ("unix", "/var/run/docker.sock").
Proof.
  split.
  - apply (ParseURL_round_trip "http" "127.0.0.1:2375"); reflexivity.
  - apply (ParseURL_round_trip "unix" "/var/run/docker.sock"); reflexivity.
Defined.

(** X2: whatever the address, the scheme ParseURL hands to the dialler is
    never "http". *)
Theorem ParseURL_never_http (url : string) :
  exists proto addr, ParseURL url = Returns (proto, addr) /\ proto <> "http".
Proof.
  rewrite ParseURL_by_segments. unfold ParseURL_segments.
  destruct (strings.Index url "://") as [m|].
  - eexists _, _. split; [done|]. simpl. by case_decide.
  - by eexists _, _.
Qed.

(** ** Daemon information, continued *)

(** X3: the first "Root Dir" row decides: the rows after it are not looked
    at, whatever their shape. *)
Theorem RootPath_first_match (d : DaemonInfo) (pre post : list (list string))
    (v : string) (more : list string) :
  DriverStatus d = pre ++ ("Root Dir" :: v :: more) :: post ->
  Forall (fun r => exists k, r !! 0%nat = Some k /\ k <> "Root Dir") pre ->
  RootPath d = Returns v.
Proof.
  intros Hd Hpre. unfold RootPath. rewrite Hd. clear Hd.
  induction Hpre as [|r pre (k & Hk & Hne) _ IH]; simpl; [done|].
  rewrite Hk. by rewrite decide_False.
Qed.

Lemma RootPath_first_match_witness :
  RootPath (info_with [["Dirs"; "12"]; ["Root Dir"; "/var/lib/docker/aufs"];
                       []; ["Root Dir"]])
  = Returns "/var/lib/docker/aufs".
Proof.
  apply (RootPath_first_match _ [["Dirs"; "12"]] [[]; ["Root Dir"]]
           "/var/lib/docker/aufs" []); [reflexivity|].
  repeat constructor. by exists "Dirs".
Defined.

(** ** The request executor, continued *)

Lemma dials_app (t1 t2 : list effect) : dials (t1 ++ t2) = dials t1 ++ dials t2.
Proof. apply omap_app. Qed.

Lemma sent_app (t1 t2 : list effect) : sent (t1 ++ t2) = sent t1 ++ sent t2.
Proof. apply omap_app. Qed.

Lemma delivered_app (t1 t2 : list effect) :
  delivered (t1 ++ t2) = delivered t1 ++ delivered t2.
Proof. apply omap_app. Qed.

Lemma body_closes_app (c : conn) (t1 t2 : list effect) :
  body_closes c (t1 ++ t2) = (body_closes c t1 + body_closes c t2)%nat.
Proof. unfold body_closes. by rewrite List.filter_app, length_app. Qed.

(** X4: when the body cannot be marshalled, or the request cannot be
    built, newRequest returns that error before any dial: no connection is
    attempted and nothing is written. *)
Theorem newRequest_fails_before_dialling (env : Env) (docker : dockerClient)
    (method uri : string) (body : value) (w : World) (e : error) :
  json_Marshal env body = Err e
  \/ (exists bodyJson, json_Marshal env body = Ok bodyJson
                       /\ http_NewRequest env method uri = Some e) ->
  let out := newRequest env docker method uri body w in
  out.1 = Err e
  /\ dials (trace out.2) = dials (trace w)
  /\ sent (trace out.2) = sent (trace w)
  /\ dialed out.2 = dialed w
  /\ store out.2 = store w.
Proof.
  intros H out. subst out. unfold newRequest, bind, emit, ret. simpl.
  destruct H as [H|(bodyJson & H1 & H2)].
  - rewrite H. simpl. by rewrite dials_app, sent_app, !app_nil_r.
  - rewrite H1, H2. simpl. by rewrite dials_app, sent_app, !app_nil_r.
Qed.

Lemma newRequest_fails_before_dialling_witness :
  let out := newRequest Faulty.unmarshallable Scripted.client "POST"
               "/containers/abc/start" (VStr "x") (Scripted.world ∅) in
  out.1 = Err (ErrorString "json: unsupported type: chan int")
  /\ dials (trace out.2) = []
  /\ sent (trace out.2) = []
  /\ dialed out.2 = 0%nat
  /\ store out.2 = store (Scripted.world ∅).
Proof.
  apply (newRequest_fails_before_dialling Faulty.unmarshallable
           Scripted.client "POST" "/containers/abc/start" (VStr "x")
           (Scripted.world ∅)).
  left. reflexivity.
Defined.

(** X5: when the dial fails, newRequest returns the error of the dial; one
    attempt was made, at the address ParseURL reads from the client's path,
    no connection is counted and nothing is written. *)
Theorem newRequest_dial_failure (env : Env) (docker : dockerClient)
    (method uri : string) (body : value) (w : World)
    (bodyJson : string) (e : error) :
  let address := ParseURL_segments (path docker) in
  json_Marshal env body = Ok bodyJson ->
  http_NewRequest env method uri = None ->
  net_Dial env (trace w ++ [Requested method uri body]) address.1 address.2
  = Some e ->
  let out := newRequest env docker method uri body w in
  out.1 = Err e
  /\ dials (trace out.2) = dials (trace w) ++ [(address.1, address.2, None)]
  /\ sent (trace out.2) = sent (trace w)
  /\ dialed out.2 = dialed w.
Proof.
  intros address Hm Hn Hd out. subst out.
  unfold newRequest, bind, emit, newConn, ret. simpl.
  rewrite Hm, Hn, ParseURL_returns. fold address.
  destruct address as [proto addr]. simpl in *. rewrite Hd. simpl.
  by rewrite !dials_app, !sent_app, !app_nil_r.
Qed.

Lemma newRequest_dial_failure_witness :
  let out := newRequest Scripted.refusing Scripted.client "GET" "/info" VNull
               (Scripted.world ∅) in
  out.1 = Err (ErrorString "dial unix /var/run/docker.sock: connection refused")
  /\ dials (trace out.2) = [] ++ [("unix", "/var/run/docker.sock", None)]
  /\ sent (trace out.2) = []
  /\ dialed out.2 = 0%nat.
Proof.
  apply (newRequest_dial_failure Scripted.refusing Scripted.client "GET"
           "/info" VNull (Scripted.world ∅) "null"); reflexivity.
Defined.

(** What a successful call has gone through. *)
Lemma newRequest_ok (env : Env) (docker : dockerClient)
    (method uri : string) (body : value) (w : World)
    (respBody : ReadCloser) (c : conn) :
  (newRequest env docker method uri body w).1 = Ok (respBody, c) ->
  let address := ParseURL_segments (path docker) in
  let t1 := trace w ++ [Requested method uri body] in
  let t2 := t1 ++ [Dialed address.1 address.2 (Some (dialed w))] in
  exists bodyJson resp,
    let req := {| http.Method := method; http.URI := uri;
                  http.ContentType := "application/json";
                  http.Payload := bodyJson |} in
    json_Marshal env body = Ok bodyJson
    /\ http_NewRequest env method uri = None
    /\ net_Dial env t1 address.1 address.2 = None
    /\ conn_Do env t2 (dialed w) req = Ok resp
    /\ isOkStatus (http.StatusCode resp) = true
    /\ c = dialed w
    /\ respBody = {| rc_conn := dialed w; rc_data := http.Body resp |}
    /\ (newRequest env docker method uri body w).2
       = {| store := store w; dialed := S (dialed w);
            trace := t2 ++ [Sent (dialed w) req] |}.
Proof.
  intros H address t1 t2. revert H. subst t2 t1 address.
  rewrite <- ParseURL_returns.
  run_newRequest; intros ?; simplify_eq/=.
  eexists _, _. repeat (split; [done|]).
  split; [by destruct (isOkStatus _)|done].
Qed.

(** X6: newRequest returns a body and a connection only if every step went
    through and the daemon answered 200, 201 or 204; the connection is the
    one dialled in this call, and the body is the body of that response. *)
Theorem newRequest_ok_only_if_accepted (env : Env) (docker : dockerClient)
    (method uri : string) (body : value) (w : World)
    (respBody : ReadCloser) (c : conn) :
  (newRequest env docker method uri body w).1 = Ok (respBody, c) ->
  let address := ParseURL_segments (path docker) in
  let t1 := trace w ++ [Requested method uri body] in
  let t2 := t1 ++ [Dialed address.1 address.2 (Some (dialed w))] in
  exists bodyJson resp,
    json_Marshal env body = Ok bodyJson
    /\ http_NewRequest env method uri = None
    /\ net_Dial env t1 address.1 address.2 = None
    /\ conn_Do env t2 (dialed w)
         {| http.Method := method; http.URI := uri;
            http.ContentType := "application/json";
            http.Payload := bodyJson |} = Ok resp
    /\ (http.StatusCode resp = 200 \/ http.StatusCode resp = 201
        \/ http.StatusCode resp = 204)
    /\ c = dialed w
    /\ rc_conn respBody = c
    /\ rc_data respBody = http.Body resp.
Proof.
  intros H address t1 t2.
  destruct (newRequest_ok _ _ _ _ _ _ _ _ H)
    as (bodyJson & resp & Hm & Hn & Hd & Hdo & Hc & -> & -> & _).
  exists bodyJson, resp. repeat (split; [done|]).
  split; [by apply isOkStatus_allow_list|done].
Qed.

Lemma newRequest_ok_only_if_accepted_witness :
  exists bodyJson resp,
    json_Marshal (Faulty.created []) VNull = Ok bodyJson
    /\ http_NewRequest (Faulty.created []) "GET" "/info" = None
    /\ net_Dial (Faulty.created [])
         ([] ++ [Requested "GET" "/info" VNull]) "unix" "/var/run/docker.sock"
       = None
    /\ conn_Do (Faulty.created [])
         (([] ++ [Requested "GET" "/info" VNull])
          ++ [Dialed "unix" "/var/run/docker.sock" (Some 0%nat)]) 0%nat
         {| http.Method := "GET"; http.URI := "/info";
            http.ContentType := "application/json";
            http.Payload := bodyJson |} = Ok resp
    /\ (http.StatusCode resp = 200 \/ http.StatusCode resp = 201
        \/ http.StatusCode resp = 204)
    /\ 0%nat = 0%nat
    /\ rc_conn {| rc_conn := 0%nat; rc_data := [] |} = 0%nat
    /\ rc_data {| rc_conn := 0%nat; rc_data := [] |} = http.Body resp.
Proof.
  apply (newRequest_ok_only_if_accepted (Faulty.created []) Scripted.client
           "GET" "/info" VNull (Scripted.world ∅)
           {| rc_conn := 0%nat; rc_data := [] |} 0%nat).
  reflexivity.
Defined.

(** A call dials at most once, at the address read from the client's path. *)
Lemma newRequest_dials (env : Env) (docker : dockerClient)
    (method uri : string) (body : value) (w : World) :
  let address := ParseURL_segments (path docker) in
  exists ds,
    dials (trace (newRequest env docker method uri body w).2)
    = dials (trace w) ++ ds
    /\ (ds = [] \/ exists c, ds = [(address.1, address.2, c)]).
Proof.
  intros address. subst address. rewrite <- ParseURL_returns.
  run_newRequest; rewrite ?dials_app; simpl; rewrite ?app_nil_r;
    try (by exists []; rewrite app_nil_r; auto);
    rewrite <- ?app_assoc; eexists [_]; eauto.
Qed.

(** X7: NewClient returns no error and keeps the address as given, whatever
    the address; and a client made from an address without "://" dials the
    unix socket at that path and nothing else, at most once for a
    request. *)
Theorem NewClient_bare_path_dials_unix (address : string) (env : Env)
    (method uri : string) (body : value) (w : World) :
  let docker := (NewClient address).1 in
  let out := newRequest env docker method uri body w in
  (NewClient address).2 = None
  /\ path docker = address
  /\ (strings.Index address "://" = None ->
      exists ds,
        dials (trace out.2) = dials (trace w) ++ ds
        /\ (ds = [] \/ exists c, ds = [("unix", address, c)])).
Proof.
  intros docker out. split; [done|]. split; [done|]. intros H.
  destruct (newRequest_dials env docker method uri body w) as (ds & Hds & Hc).
  exists ds. split; [done|].
  unfold docker in Hc. simpl in Hc. unfold ParseURL_segments in Hc.
  by rewrite H in Hc.
Qed.

Lemma NewClient_bare_path_dials_unix_witness :
  let out := newRequest Scripted.refusing (NewClient "/var/run/docker.sock").1
               "GET" "/info" VNull (Scripted.world ∅) in
  strings.Index "/var/run/docker.sock" "://" = None
  /\ exists ds,
       dials (trace out.2) = [] ++ ds
       /\ (ds = [] \/ exists c, ds = [("unix", "/var/run/docker.sock", c)]).
Proof.
  split; [reflexivity|].
  apply (proj2 (proj2 (NewClient_bare_path_dials_unix "/var/run/docker.sock"
                         Scripted.refusing "GET" "/info" VNull
                         (Scripted.world ∅)))).
  reflexivity.
Defined.

(** With an address that has a scheme, NewClient returns no error
    either. *)
Example NewClient_with_scheme :
  NewClient "tcp://127.0.0.1:2375"
  = ({| path := "tcp://127.0.0.1:2375" |}, None).
Proof. reflexivity. Qed.

(** ** Connections, continued *)

Lemma opens_one (c c' : conn) (proto addr : string) :
  opens c' [Dialed proto addr (Some c)] = if decide (c' = c) then 1%nat else 0%nat.
Proof.
  unfold opens. simpl. case_bool_decide; case_decide; simplify_eq; done.
Qed.

Lemma closes_one (c c' : conn) :
  closes c' [ConnClosed c] = if decide (c' = c) then 1%nat else 0%nat.
Proof.
  unfold closes. simpl. case_bool_decide; case_decide; simplify_eq; done.
Qed.

Lemma body_closes_one (c c' : conn) :
  body_closes c' [BodyClosed c] = if decide (c' = c) then 1%nat else 0%nat.
Proof.
  unfold body_closes. simpl. case_bool_decide; case_decide; simplify_eq; done.
Qed.

(** What an accepted request adds to the counts: one connection opened,
    nothing closed. *)
Lemma newRequest_ok_counts (env : Env) (docker : dockerClient)
    (method uri : string) (body : value) (w : World)
    (respBody : ReadCloser) (c c' : conn) :
  (newRequest env docker method uri body w).1 = Ok (respBody, c) ->
  let t := trace (newRequest env docker method uri body w).2 in
  opens c' t = (opens c' (trace w) + if decide (c' = c) then 1 else 0)%nat
  /\ closes c' t = closes c' (trace w)
  /\ body_closes c' t = body_closes c' (trace w)
  /\ rc_conn respBody = c.
Proof.
  intros H t. subst t.
  destruct (newRequest_ok _ _ _ _ _ _ _ _ H)
    as (bodyJson & resp & _ & _ & _ & _ & _ & -> & -> & ->).
  simpl. rewrite !opens_app, !closes_app, !body_closes_app, opens_one.
  unfold opens, closes, body_closes. simpl. repeat split; lia.
Qed.

(** What a failed request adds: nothing is closed. *)
Lemma newRequest_body_closes (env : Env) (docker : dockerClient)
    (method uri : string) (body : value) (w : World) (c : conn) :
  body_closes c (trace (newRequest env docker method uri body w).2)
  = body_closes c (trace w).
Proof.
  run_newRequest; rewrite ?body_closes_app; unfold body_closes; simpl; lia.
Qed.

(** X8: when RemoveContainer or StartContainer returns nil, the connection
    dialled for the request and its response body have each been closed
    once, and no connection is left open that was not open before. *)
Theorem accepted_request_is_closed (env : Env) (docker : dockerClient)
    (name : string) (force volumes : bool) (hostConfig : value) (w : World)
    (c : conn) :
  let removed := RemoveContainer env docker name force volumes w in
  let started := StartContainer env docker name hostConfig w in
  let one := if decide (c = dialed w) then 1%nat else 0%nat in
  (removed.1 = None ->
   left_open c (trace removed.2) = left_open c (trace w)
   /\ closes c (trace removed.2) = (closes c (trace w) + one)%nat
   /\ body_closes c (trace removed.2) = (body_closes c (trace w) + one)%nat)
  /\ (started.1 = None ->
      left_open c (trace started.2) = left_open c (trace w)
      /\ closes c (trace started.2) = (closes c (trace w) + one)%nat
      /\ body_closes c (trace started.2) = (body_closes c (trace w) + one)%nat).
Proof.
  intros removed started one. subst removed started one. split.
  - unfold RemoveContainer, bind, emit, ret. cbv zeta.
    destruct (newRequest _ _ _ _ _ _) as [[[respBody c0]|e] w'] eqn:E;
      simpl; [intros _|done].
    pose proof (newRequest_ok_counts env docker _ _ _ w respBody c0 c
                  ltac:(by rewrite E)) as (Ho & Hc & Hb & Hrc).
    pose proof (newRequest_ok _ _ _ _ _ _ _ _ ltac:(by rewrite E))
      as (_ & _ & _ & _ & _ & _ & _ & Hc0 & _).
    rewrite E in Ho, Hc, Hb. simpl in Ho, Hc, Hb.
    unfold left_open.
    rewrite !opens_app, !closes_app, !body_closes_app, Ho, Hc, Hb.
    rewrite closes_one, body_closes_one, Hrc, Hc0.
    unfold opens, closes, body_closes. simpl.
    case_decide; repeat split; lia.
  - unfold StartContainer, bind, emit, ret. cbv zeta.
    destruct (newRequest _ _ _ _ _ _) as [[[respBody c0]|e] w'] eqn:E;
      simpl; [intros _|done].
    pose proof (newRequest_ok_counts env docker _ _ _ w respBody c0 c
                  ltac:(by rewrite E)) as (Ho & Hc & Hb & Hrc).
    pose proof (newRequest_ok _ _ _ _ _ _ _ _ ltac:(by rewrite E))
      as (_ & _ & _ & _ & _ & _ & _ & Hc0 & _).
    rewrite E in Ho, Hc, Hb. simpl in Ho, Hc, Hb.
    unfold left_open.
    rewrite !opens_app, !closes_app, !body_closes_app, Ho, Hc, Hb.
    rewrite closes_one, body_closes_one, Hrc, Hc0.
    unfold opens, closes, body_closes. simpl.
    case_decide; repeat split; lia.
Qed.

Lemma accepted_request_is_closed_witness :
  let env := Scripted.answering (Scripted.response 204 "204 No Content" []) in
  let removed := RemoveContainer env Scripted.client "c1" true false
                   (Scripted.world ∅) in
  left_open 0%nat (trace removed.2) = left_open 0%nat []
  /\ closes 0%nat (trace removed.2) = (closes 0%nat [] + 1)%nat
  /\ body_closes 0%nat (trace removed.2) = (body_closes 0%nat [] + 1)%nat.
Proof.
  apply (proj1 (accepted_request_is_closed
                  (Scripted.answering (Scripted.response 204 "204 No Content" []))
                  Scripted.client "c1" true false VNull (Scripted.world ∅)
                  0%nat)).
  reflexivity.
Defined.

(** ** Create container, continued *)

(** X9: once its request is accepted, CreateContainer closes the connection
    and the body once, whether the response decodes or not, and leaves no
    connection open that was not open before. *)
Theorem CreateContainer_closes_whatever_decodes (env : Env)
    (docker : dockerClient) (container : loc) (w : World)
    (respBody : ReadCloser) (c c' : conn) :
  (newRequest env docker "POST" (create_uri (has_Name container w))
     (create_body container w) (without_Name container w)).1
  = Ok (respBody, c) ->
  let out := CreateContainer env docker container w in
  let one := if decide (c' = c) then 1%nat else 0%nat in
  left_open c' (trace out.2) = left_open c' (trace w)
  /\ closes c' (trace out.2) = (closes c' (trace w) + one)%nat
  /\ body_closes c' (trace out.2) = (body_closes c' (trace w) + one)%nat.
Proof.
  intros H out one. subst out one. rewrite CreateContainer_run. cbv zeta.
  pose proof (newRequest_ok_counts _ _ _ _ _ _ _ _ c' H) as (Ho & Hc & Hb & Hrc).
  rewrite H. simpl. unfold left_open.
  rewrite !opens_app, !closes_app, !body_closes_app, Ho, Hc, Hb.
  rewrite closes_one, body_closes_one, Hrc.
  unfold opens, closes, body_closes. simpl.
  case_decide; repeat split; lia.
Qed.

Lemma CreateContainer_closes_whatever_decodes_witness :
  let env := Faulty.created [json.Garbage "invalid character '<' looking for beginning of value"] in
  let out := CreateContainer env Scripted.client 0%nat
               (Scripted.world Scripted.foo_spec) in
  out.1 = ("", Some (ErrorString "invalid character '<' looking for beginning of value"))
  /\ left_open 0%nat (trace out.2) = left_open 0%nat []
  /\ closes 0%nat (trace out.2) = (closes 0%nat [] + 1)%nat
  /\ body_closes 0%nat (trace out.2) = (body_closes 0%nat [] + 1)%nat.
Proof.
  split; [vm_compute; reflexivity|].
  apply (CreateContainer_closes_whatever_decodes
           (Faulty.created [json.Garbage "invalid character '<' looking for beginning of value"])
           Scripted.client 0%nat (Scripted.world Scripted.foo_spec)
           {| rc_conn := 0%nat;
              rc_data := [json.Garbage "invalid character '<' looking for beginning of value"] |}
           0%nat 0%nat).
  vm_compute. reflexivity.
Defined.

Lemma without_Name_id (container : loc) (w : World) :
  has_Name container w = false ->
  alter (delete "Name") container (store w) = store w.
Proof.
  unfold has_Name. intros H. apply bool_decide_eq_false in H.
  apply alter_id. intros m Hm. apply delete_id.
  destruct (m !! "Name") eqn:En; [|done]. exfalso. apply H.
  rewrite Hm. simpl. by rewrite En.
Qed.

(** X10: for a specification without a "Name" key, and for a nil map,
    CreateContainer requests "/containers/create" with no query, sends the
    map as it is, and leaves every map of the caller unchanged. *)
Theorem CreateContainer_without_Name (env : Env) (docker : dockerClient)
    (container : loc) (w : World) :
  store w !! container ≫= (.!! "Name") = None ->
  let out := CreateContainer env docker container w in
  store out.2 = store w
  /\ trace out.2 !! length (trace w)
     = Some (Requested "POST" "/containers/create"
               match store w !! container with
               | Some m => VObj m
               | None => VNull
               end).
Proof.
  intros H out. subst out.
  assert (has_Name container w = false) as Hn.
  { unfold has_Name. rewrite H. apply bool_decide_eq_false. by intros [? ?]. }
  split.
  - rewrite CreateContainer_store. by apply without_Name_id.
  - rewrite CreateContainer_first_effect, Hn.
    unfold create_body, without_Name. simpl.
    by rewrite (without_Name_id _ _ Hn).
Qed.

Lemma CreateContainer_without_Name_witness :
  let spec : gmap string value := {[ "Image" := VStr "busybox" ]} in
  let out := CreateContainer Scripted.refusing Scripted.client 0%nat
               (Scripted.world spec) in
  store out.2 = store (Scripted.world spec)
  /\ trace out.2 !! 0%nat
     = Some (Requested "POST" "/containers/create" (VObj spec)).
Proof.
  apply (CreateContainer_without_Name Scripted.refusing Scripted.client 0%nat
           (Scripted.world {[ "Image" := VStr "busybox" ]})).
  vm_compute. reflexivity.
Defined.

(** X11: CreateContainer never returns an identifier together with an
    error. *)
Theorem CreateContainer_error_has_no_identifier (env : Env)
    (docker : dockerClient) (container : loc) (w : World)
    (name : string) (e : error) :
  (CreateContainer env docker container w).1 = (name, Some e) -> name = "".
Proof.
  rewrite CreateContainer_run. cbv zeta.
  destruct (newRequest _ _ _ _ _ _) as [[[respBody c]|e'] w']; simpl.
  - destruct (json.Decode _ _).1; by intros [= <- ?].
  - by intros [= <- ?].
Qed.

Lemma CreateContainer_error_has_no_identifier_witness :
  let out := (CreateContainer
                (Scripted.answering (Scripted.response 404 "404 Not Found" []))
                Scripted.client 0%nat (Scripted.world Scripted.foo_spec)).1 in
  out = (out.1, Some (ErrorString "invalid HTTP request 404 404 Not Found"))
  /\ out.1 = "".
Proof.
  split; [vm_compute; reflexivity|].
  apply (CreateContainer_error_has_no_identifier
           (Scripted.answering (Scripted.response 404 "404 Not Found" []))
           Scripted.client 0%nat (Scripted.world Scripted.foo_spec) _
           (ErrorString "invalid HTTP request 404 404 Not Found")).
  vm_compute. reflexivity.
Defined.

(** X12: once its request is accepted, CreateContainer decodes the first
    JSON value of the response and nothing after it: an empty body is
    io.EOF, bytes that are no JSON are a syntax error, and a value gives the
    identifier it unmarshals to or the error of unmarshalling it. *)
Theorem CreateContainer_decodes_first_value (env : Env)
    (docker : dockerClient) (container : loc) (w : World)
    (respBody : ReadCloser) (c : conn) :
  (newRequest env docker "POST" (create_uri (has_Name container w))
     (create_body container w) (without_Name container w)).1
  = Ok (respBody, c) ->
  (CreateContainer env docker container w).1
  = match rc_data respBody with
    | [] => ("", Some EOF)
    | json.Garbage msg :: _ => ("", Some (ErrorString msg))
    | json.JSONValue v :: _ =>
        match Unmarshal_createResp env v with
        | Ok id => (id, None)
        | Err e => ("", Some e)
        end
    end.
Proof.
  intros H. rewrite CreateContainer_run. cbv zeta. rewrite H. simpl.
  unfold json.Decode, json.NewDecoder, json.readValue. simpl.
  destruct (rc_data respBody) as [|[v|msg] rest]; simpl; [done| |done].
  by destruct (Unmarshal_createResp env v).
Qed.

Lemma CreateContainer_decodes_first_value_witness :
  (CreateContainer
     (Faulty.created [json.JSONValue (VObj {[ "Id" := VStr "abc" ]});
                      json.Garbage "trailing"])
     Scripted.client 0%nat (Scripted.world Scripted.foo_spec)).1
  = ("abc", None)
  /\ (CreateContainer (Faulty.created []) Scripted.client 0%nat
        (Scripted.world Scripted.foo_spec)).1
     = ("", Some EOF).
Proof.
  split.
  - etransitivity.
    + apply (CreateContainer_decodes_first_value
               (Faulty.created [json.JSONValue (VObj {[ "Id" := VStr "abc" ]});
                                json.Garbage "trailing"])
               Scripted.client 0%nat (Scripted.world Scripted.foo_spec)
               {| rc_conn := 0%nat;
                  rc_data := [json.JSONValue (VObj {[ "Id" := VStr "abc" ]});
                              json.Garbage "trailing"] |} 0%nat).
      vm_compute. reflexivity.
    + vm_compute. reflexivity.
  - etransitivity.
    + apply (CreateContainer_decodes_first_value (Faulty.created [])
               Scripted.client 0%nat (Scripted.world Scripted.foo_spec)
               {| rc_conn := 0%nat; rc_data := [] |} 0%nat).
      vm_compute. reflexivity.
    + reflexivity.
Defined.

(** X13: a second CreateContainer on the same map finds no "Name" and
    requests "/containers/create" without a query, whatever the first call
    met. *)
Theorem CreateContainer_again_sends_no_name (env : Env)
    (docker : dockerClient) (container : loc) (w : World) :
  let w1 := (CreateContainer env docker container w).2 in
  let w2 := (CreateContainer env docker container w1).2 in
  has_Name container w1 = false
  /\ requests (trace w2)
     = requests (trace w)
       ++ [("POST", create_uri (has_Name container w));
           ("POST", "/containers/create")]
  /\ store w2 = store w1.
Proof.
  intros w1 w2.
  assert (has_Name container w1 = false) as Hn.
  { unfold has_Name, w1. rewrite CreateContainer_store, lookup_alter_eq.
    apply bool_decide_eq_false. intros [v Hv].
    destruct (store w !! container) as [m|]; simpl in Hv; [|done].
    by rewrite lookup_delete_eq in Hv. }
  split; [done|]. split.
  - unfold w2. rewrite CreateContainer_requests, Hn. unfold w1.
    rewrite CreateContainer_requests. by rewrite <- app_assoc.
  - unfold w2. rewrite CreateContainer_store. by apply without_Name_id.
Qed.

(** ** The event stream, continued *)

Lemma newRequest_delivered (env : Env) (docker : dockerClient)
    (method uri : string) (body : value) (w : World) :
  delivered (trace (newRequest env docker method uri body w).2)
  = delivered (trace w).
Proof.
  run_newRequest; by rewrite !delivered_app, ?app_nil_r.
Qed.

(** X14: when the request for the events fails, the goroutine prints the
    error, sends nothing and closes the channel: the consumer sees an empty
    closed channel and no error. *)
Theorem GetEvents_request_failure (env : Env) (docker : dockerClient)
    (rounds : nat) (w : World) (e : error) :
  (newRequest env docker "GET" "/events" VNull w).1 = Err e ->
  let out := GetEvents_producer env docker rounds w in
  out.1 = true
  /\ delivered (trace out.2) = delivered (trace w)
  /\ trace out.2
     = trace (newRequest env docker "GET" "/events" VNull w).2
       ++ [Printed (Error e); ChanClosed].
Proof.
  intros H out. subst out. unfold GetEvents_producer, bind, emit, ret.
  pose proof (newRequest_delivered env docker "GET" "/events" VNull w) as Hd.
  destruct (newRequest _ _ _ _ _ _) as [[[respBody c]|e'] w']; simpl in *;
    [done|].
  simplify_eq. split; [done|]. split.
  - by rewrite !delivered_app, Hd, !app_nil_r.
  - by rewrite <- app_assoc.
Qed.

Lemma GetEvents_request_failure_witness :
  let out := GetEvents_producer Scripted.refusing Scripted.client 5
               (Scripted.world ∅) in
  out.1 = true
  /\ delivered (trace out.2) = []
  /\ trace out.2
     = trace (newRequest Scripted.refusing Scripted.client "GET" "/events"
                VNull (Scripted.world ∅)).2
       ++ [Printed "dial unix /var/run/docker.sock: connection refused";
           ChanClosed].
Proof.
  apply (GetEvents_request_failure Scripted.refusing Scripted.client 5
           (Scripted.world ∅)
           (ErrorString "dial unix /var/run/docker.sock: connection refused")).
  reflexivity.
Defined.

(** Over a body of complete JSON values the loop sends the events of the
    values that unmarshal, in the order of the body, logs the others, and
    ends at the end of the body. *)
Lemma events_loop_values (env : Env) (vs : list value) (rounds : nat)
    (w : World) :
  Forall (fun v => Unmarshal_Event env v <> Err EOF) vs ->
  (length vs < rounds)%nat ->
  exists es,
    events_loop env rounds
      {| json.err := None; json.buf := json.JSONValue <$> vs |} w
    = (true, after w es)
    /\ delivered es = decodable env vs
    /\ ChanClosed ∉ es.
Proof.
  intros Hvs. revert rounds w.
  induction Hvs as [|v vs Hv _ IH]; intros rounds w Hr.
  - destruct rounds as [|r]; [simpl in Hr; lia|].
    exists []. rewrite after_nil. split; [done|]. split; [done|].
    apply not_elem_of_nil.
  - destruct rounds as [|r]; [simpl in Hr; lia|].
    simpl in Hr. rewrite fmap_cons.
    destruct (Unmarshal_Event env v) as [ev|[|msg]] eqn:E; [|done|].
    + rewrite (events_loop_value env _ _ _ _ _ E).
      destruct (IH r (after w [ChanSent ev]) ltac:(lia)) as (es & -> & Hd & Hc).
      exists (ChanSent ev :: es). rewrite after_after. split; [done|].
      split.
      * unfold decodable in *. simpl. rewrite E.
        change (delivered (ChanSent ev :: es)) with (ev :: delivered es).
        by rewrite Hd.
      * intros [?|?]%elem_of_cons; [done|by apply Hc].
    + rewrite (events_loop_mismatch env _ _ _ _ _ E).
      destruct (IH r (after w [decode_log (ErrorString msg)]) ltac:(lia))
        as (es & -> & Hd & Hc).
      exists (decode_log (ErrorString msg) :: es). rewrite after_after.
      split; [done|]. split.
      * unfold decodable in *. simpl. rewrite E.
        change (delivered (decode_log (ErrorString msg) :: es))
          with (delivered es).
        by rewrite Hd.
      * intros [?|?]%elem_of_cons; [done|by apply Hc].
Qed.

(** X15: when the events request is accepted and the body is a sequence of
    complete JSON values, the consumer receives the events of exactly the
    values that unmarshal, in the order of the body, and then the channel is
    closed, once. *)
Theorem GetEvents_delivers_in_order (env : Env) (docker : dockerClient)
    (rounds : nat) (w : World) (respBody : ReadCloser) (c : conn)
    (vs : list value) :
  (newRequest env docker "GET" "/events" VNull w).1 = Ok (respBody, c) ->
  rc_data respBody = json.JSONValue <$> vs ->
  Forall (fun v => Unmarshal_Event env v <> Err EOF) vs ->
  (length vs < rounds)%nat ->
  let out := GetEvents_producer env docker rounds w in
  out.1 = true
  /\ delivered (trace out.2) = delivered (trace w) ++ decodable env vs
  /\ exists es, trace out.2
                = trace (newRequest env docker "GET" "/events" VNull w).2
                  ++ es ++ [Logged "closing event channel"; ChanClosed]
                /\ ChanClosed ∉ es.
Proof.
  intros H Hb Hvs Hr out. subst out.
  unfold GetEvents_producer, bind, emit, ret.
  pose proof (newRequest_delivered env docker "GET" "/events" VNull w) as Hd.
  destruct (newRequest _ _ _ _ _ _) as [[[respBody' c']|e'] w']; simpl in *;
    [|done].
  simplify_eq. unfold json.NewDecoder. rewrite Hb.
  destruct (events_loop_values env vs rounds w' Hvs Hr) as (es & -> & He & Hc).
  simpl. split; [done|]. split.
  - rewrite <- !app_assoc, !delivered_app, Hd, He. simpl.
    by rewrite app_nil_r.
  - exists es. split; [|done]. by rewrite <- !app_assoc.
Qed.

Lemma GetEvents_delivers_in_order_witness :
  let body := [Scripted.event "c1" "start"; VNum 3; Scripted.event "c2" "die"] in
  let env := Scripted.answering
               (Scripted.response 200 "200 OK" (json.JSONValue <$> body)) in
  let out := GetEvents_producer env Scripted.client 4 (Scripted.world ∅) in
  out.1 = true
  /\ delivered (trace out.2)
     = [] ++ [Some {| ContainerId := "c1"; Status := "start" |};
              Some {| ContainerId := "c2"; Status := "die" |}].
Proof.
  intros body env out.
  destruct (GetEvents_delivers_in_order env Scripted.client 4
              (Scripted.world ∅)
              {| rc_conn := 0%nat; rc_data := json.JSONValue <$> body |}
              0%nat body) as (H1 & H2 & _).
  - reflexivity.
  - reflexivity.
  - repeat constructor; vm_compute; discriminate.
  - simpl. lia.
  - split; [exact H1|]. etransitivity; [exact H2|]. vm_compute. reflexivity.
Defined.

(** ** Container logs *)

Lemma itoa_parse (z : Z) : NilZero.int_of_string (itoa z) = Some (Z.to_int z).
Proof.
  unfold itoa. apply NilZero.isi; destruct z; simpl; try discriminate.
  all: intros [= Hnil]; by apply DecimalPos.Unsigned.to_uint_nonnil in Hnil.
Qed.

Lemma itoa_inj (a b : Z) : itoa a = itoa b -> a = b.
Proof.
  intros H. apply DecimalZ.to_int_inj.
  apply (f_equal NilZero.int_of_string) in H. rewrite !itoa_parse in H.
  congruence.
Qed.

Lemma itoa_not_all (z : Z) : itoa z <> "all".
Proof.
  intros H. pose proof (itoa_parse z) as Hp. rewrite H in Hp.
  vm_compute in Hp. discriminate.
Qed.

(** The text of the tail: "all" for -1 only, and one text for one
    value. *)
Lemma ContainerLogs_tailStr_encoding (tail tail' : Z) :
  (ContainerLogs_tailStr tail = "all" <-> tail = -1)
  /\ (ContainerLogs_tailStr tail = ContainerLogs_tailStr tail'
      <-> tail = tail').
Proof.
  unfold ContainerLogs_tailStr. cbv zeta. split; split.
  - case_decide; [done|]. intros Heq. by apply itoa_not_all in Heq.
  - intros ->. by rewrite decide_True.
  - repeat case_decide; subst; try done.
    + intros Heq. symmetry in Heq. by apply itoa_not_all in Heq.
    + intros Heq. by apply itoa_not_all in Heq.
    + apply itoa_inj.
  - by intros ->.
Qed.

(** X16: the URI ContainerLogs requests ends in "&tail=" and the text of
    the tail; that text is "all" for -1 and for no other value, and is the
    decimal text otherwise; for the same container and flags, two different
    tails never give the same URI. *)
Theorem ContainerLogs_tail_encoding (id : string)
    (follow stdout stderr timestamps : bool) (tail tail' : Z) :
  ContainerLogs_uri id follow stdout stderr timestamps tail
  = "/containers/" +:+ id +:+ "/logs?follow=" +:+ FormatBool follow
    +:+ "&stdout=" +:+ FormatBool stdout +:+ "&stderr=" +:+ FormatBool stderr
    +:+ "&timestamps=" +:+ FormatBool timestamps +:+ "&tail="
    +:+ (if decide (tail = -1) then "all" else itoa tail)
  /\ (ContainerLogs_uri id follow stdout stderr timestamps tail
      = ContainerLogs_uri id follow stdout stderr timestamps (-1)
      <-> tail = -1)
  /\ (ContainerLogs_uri id follow stdout stderr timestamps tail
      = ContainerLogs_uri id follow stdout stderr timestamps tail'
      <-> tail = tail').
Proof.
  assert (forall a b,
            ContainerLogs_uri id follow stdout stderr timestamps a
            = ContainerLogs_uri id follow stdout stderr timestamps b
            <-> a = b) as Hinj.
  { intros a b. split; [|by intros ->]. unfold ContainerLogs_uri. intros H.
    do 11 apply String.app_inj in H.
    by apply (ContainerLogs_tailStr_encoding a b). }
  split; [reflexivity|]. split; apply Hinj.
Qed.

(** The query of a full log and of the last five lines. *)
Example ContainerLogs_uri_tails :
  ContainerLogs_uri "c1" true true false false (-1)
  = "/containers/c1/logs?follow=true&stdout=true&stderr=false&timestamps=false&tail=all"
  /\ ContainerLogs_uri "c1" false true true true 5
     = "/containers/c1/logs?follow=false&stdout=true&stderr=true&timestamps=true&tail=5".
Proof. by split. Qed.

(** ** Reading containers and daemon information *)

Lemma requests_app (t1 t2 : list effect) :
  requests (t1 ++ t2) = requests t1 ++ requests t2.
Proof. apply omap_app. Qed.

Ltac fetch_proof env docker uri :=
  let w := fresh "w" in
  intros w; unfold bind, emit, ret; cbv zeta;
  pose proof (newRequest_requests env docker "GET" uri VNull w) as Hreq;
  pose proof (newRequest_store env docker "GET" uri VNull w) as Hst;
  destruct (newRequest env docker "GET" uri VNull w)
    as [[[respBody c]|e] w'] eqn:E; simpl in *;
  [|done];
  split; [by rewrite !requests_app, Hreq, !app_nil_r|];
  split; [done|]; split; [by destruct (json.Decode _ _).1|];
  intros c';
  pose proof (newRequest_ok_counts env docker "GET" uri VNull w respBody c c'
                ltac:(by rewrite E)) as (Ho & Hc & Hb & Hrc);
  rewrite E in Ho, Hc, Hb; simpl in Ho, Hc, Hb;
  unfold left_open;
  rewrite !opens_app, !closes_app, !body_closes_app, Ho, Hc, Hb;
  rewrite closes_one, body_closes_one, Hrc;
  unfold opens, closes, body_closes; simpl;
  case_decide; repeat split; lia.

(** X17: FetchContainer, FetchAllContainers and Info each make one GET, of
    "/containers/<name>/json", "/containers/json" and "/info"; they return
    the error of the request as it is; and once the request is accepted
    they return what the decoder makes of the first value of the body,
    with the connection and the body closed once each, whether the decoding
    succeeded or not. *)
Theorem fetch_operations (env : Env) (docker : dockerClient)
    (Unmarshal_Container : value -> result (option Container))
    (Unmarshal_Containers : value -> result (list (option Container)))
    (Unmarshal_DaemonInfo : value -> result (option DaemonInfo))
    (name : string) :
  fetches env docker ("/containers/" +:+ name +:+ "/json") Unmarshal_Container
    (FetchContainer env docker Unmarshal_Container name)
  /\ fetches env docker "/containers/json" Unmarshal_Containers
       (FetchAllContainers env docker Unmarshal_Containers)
  /\ fetches env docker "/info" Unmarshal_DaemonInfo
       (Info env docker Unmarshal_DaemonInfo).
Proof.
  split; [|split].
  - unfold fetches, FetchContainer.
    fetch_proof env docker ("/containers/" +:+ name +:+ "/json").
  - unfold fetches, FetchAllContainers.
    fetch_proof env docker "/containers/json".
  - unfold fetches, Info. fetch_proof env docker "/info".
Qed.

(** An accepted request with nothing in the body is io.EOF to all three;
    a JSON null is a nil container with no error. *)
Example fetch_empty_body :
  (FetchContainer (Faulty.created []) Scripted.client
     Faulty.unmarshal_Container "c1" (Scripted.world ∅)).1 = Err EOF
  /\ (FetchAllContainers (Faulty.created []) Scripted.client
        Faulty.unmarshal_Containers (Scripted.world ∅)).1 = Err EOF
  /\ (Info (Faulty.created []) Scripted.client Faulty.unmarshal_DaemonInfo
        (Scripted.world ∅)).1 = Err EOF
  /\ (FetchContainer (Faulty.created [json.JSONValue VNull]) Scripted.client
        Faulty.unmarshal_Container "c1" (Scripted.world ∅)).1 = Ok None.
Proof. vm_compute. by repeat split. Qed.

(** ** Addresses, continued *)

Lemma substring_upto (s : string) (p m k : nat) :
  (p + m <= k)%nat ->
  String.substring p m (String.substring 0 k s) = String.substring p m s.
Proof.
  revert p m k. induction s as [|c s IH]; intros p m k H.
  - by destruct p, m, k.
  - destruct k as [|k].
    + assert (p = 0%nat) as -> by lia. assert (m = 0%nat) as -> by lia. done.
    + destruct p as [|p]; simpl.
      * destruct m as [|m]; [done|]. f_equal. apply (IH 0%nat). lia.
      * apply IH. lia.
Qed.

(** The text before the first separator holds no separator. *)
Lemma upto_no_separator (s : string) (k : nat) :
  strings.Index s "://" = Some k ->
  strings.Index (strings.upto k s) "://" = None.
Proof.
  intros Hk. destruct (strings.Index (strings.upto k s) "://") as [p|] eqn:Hp;
    [|done].
  exfalso.
  pose proof (strings_facts.Index_bound _ _ _ separator_nonempty Hp) as Hb.
  unfold strings.upto in Hb. rewrite strings_facts.length_substring in Hb.
  change (String.length "://") with 3%nat in Hb.
  apply String.index_correct1 in Hp. unfold strings.upto in Hp.
  change (String.length "://") with 3%nat in Hp.
  rewrite substring_upto in Hp by lia.
  apply (String.index_correct2 _ _ _ _ Hk p); [lia|lia|done].
Qed.

(** The two parts ParseURL returns hold no separator, and the scheme is not
    "http". *)
Lemma ParseURL_parts (url : string) :
  let parts := ParseURL_segments url in
  strings.Index parts.1 "://" = None
  /\ strings.Index parts.2 "://" = None
  /\ parts.1 <> "http".
Proof.
  unfold ParseURL_segments.
  destruct (strings.Index url "://") as [m|] eqn:Hm; simpl.
  - split; [|split].
    + case_decide; [done|]. by apply upto_no_separator.
    + destruct (strings.Index (strings.from (m + 3) url) "://") as [k|] eqn:Hk;
        [by apply upto_no_separator|done].
    + by case_decide.
  - by repeat split.
Qed.

(** X18: what ParseURL returns can be written back as scheme, "://",
    endpoint and parsed again to the same result; the scheme and the
    endpoint it returns hold no separator. *)
Theorem ParseURL_reparses (url proto addr : string) :
  ParseURL url = Returns (proto, addr) ->
  ParseURL (proto +:+ "://" +:+ addr) = Returns (proto, addr)
  /\ strings.Index proto "://" = None
  /\ strings.Index addr "://" = None.
Proof.
  rewrite ParseURL_by_segments. intros [= H].
  destruct (ParseURL_parts url) as (Hp & Ha & Hh). rewrite H in Hp, Ha, Hh.
  simpl in *. split; [|done].
  rewrite (ParseURL_joined _ _ Hp Ha). by rewrite decide_False.
Qed.

Lemma ParseURL_reparses_witness :
  ParseURL "http://h:1://ignored" = Returns ("tcp", "h:1")
  /\ ParseURL ("tcp" +:+ "://" +:+ "h:1") = Returns ("tcp", "h:1")
  /\ strings.Index "tcp" "://" = None
  /\ strings.Index "h:1" "://" = None.
Proof.
  split; [reflexivity|].
  apply (ParseURL_reparses "http://h:1://ignored" "tcp" "h:1"). reflexivity.
Defined.

(** ** Run container, continued *)

Lemma StartContainer_store (env : Env) (docker : dockerClient)
    (name : string) (hostConfig : value) (w : World) :
  store (StartContainer env docker name hostConfig w).2 = store w.
Proof.
  unfold StartContainer, bind, emit, ret. cbv zeta.
  pose proof (newRequest_store env docker "POST"
    ("/containers/" +:+ name +:+ "/start") hostConfig w) as H.
  by destruct (newRequest _ _ _ _ _ _) as [[[respBody c]|e] w'].
Qed.

(** X19: whatever happens to the two requests, RunContainer leaves the
    caller's specification without its "Name" key and with every other key
    as it was, "HostConfig" included; no other map is touched. *)
Theorem RunContainer_store (env : Env) (docker : dockerClient)
    (config : loc) (w : World) :
  store (RunContainer env docker config w).2
  = alter (delete "Name") config (store w).
Proof.
  unfold RunContainer, bind, map_index, ret.
  pose proof (CreateContainer_store env docker config w) as Hs.
  destruct (CreateContainer env docker config w) as [[name [e|]] w1];
    simpl in *; [done|].
  pose proof (StartContainer_store env docker name
    (default VNull (store w1 !! config ≫= (.!! "HostConfig"))) w1) as Hst.
  destruct (StartContainer _ _ _ _ _) as [e w2]. simpl in *. congruence.
Qed.

(** ** The event stream: the connection *)

Lemma events_loop_closes (env : Env) (rounds : nat) (dec : json.Decoder)
    (w : World) (c : conn) :
  let t := trace (events_loop env rounds dec w).2 in
  closes c t = closes c (trace w) /\ body_closes c t = body_closes c (trace w).
Proof.
  revert dec w. induction rounds as [|r IH]; intros dec w; [done|].
  simpl. destruct (json.Decode (Unmarshal_Event env) dec) as [[ev|[|msg]] dec'].
  - unfold bind, emit. simpl.
    destruct (IH dec' {| store := store w; dialed := dialed w;
                         trace := trace w ++ [ChanSent ev] |}) as [-> ->].
    simpl. rewrite closes_app, body_closes_app.
    unfold closes, body_closes. simpl. lia.
  - done.
  - unfold bind, emit. simpl.
    destruct (IH dec' {| store := store w; dialed := dialed w;
                         trace := trace w ++ [Logged ("cannot decode json: " +:+ msg)] |})
      as [-> ->].
    simpl. rewrite closes_app, body_closes_app.
    unfold closes, body_closes. simpl. lia.
Qed.

(** X20: the goroutine of GetEvents closes neither the connection nor the
    response body, whether the request fails, the body ends or the loop is
    still running: with no signal, the connection of the stream stays
    open. *)
Theorem GetEvents_never_closes (env : Env) (docker : dockerClient)
    (rounds : nat) (w : World) (c : conn) :
  let out := GetEvents_producer env docker rounds w in
  closes c (trace out.2) = closes c (trace w)
  /\ body_closes c (trace out.2) = body_closes c (trace w).
Proof.
  intros out. subst out. unfold GetEvents_producer, bind, emit, ret.
  pose proof (newRequest_closes env docker "GET" "/events" VNull w c) as Hc.
  pose proof (newRequest_body_closes env docker "GET" "/events" VNull w c) as Hb.
  destruct (newRequest _ _ _ _ _ _) as [[[respBody c0]|e] w']; simpl in *.
  - pose proof (events_loop_closes env rounds
                  (json.NewDecoder (rc_data respBody)) w' c) as [Hlc Hlb].
    destruct (events_loop _ _ _ _) as [[|] w'']; simpl in *.
    + rewrite !closes_app, !body_closes_app, Hlc, Hlb, Hc, Hb.
      unfold closes, body_closes. simpl. lia.
    + by rewrite Hlc, Hlb, Hc, Hb.
  - rewrite !closes_app, !body_closes_app, Hc, Hb.
    unfold closes, body_closes. simpl. lia.
Qed.
